(** * news_swarm: the agent tool loop and the orchestrator

    A shallow embedding of [src/news_swarm.py]: [SwarmAgent.run] (the
    tool-resolution loop around the chat endpoint) and
    [OrchestratorAgent.run] (plan, dispatch, synthesize).

    Python values are embedded as the JSON-like type [value]; exceptions,
    the ambient world (network, model endpoint) and non-termination are
    made explicit in the result type [res].  The [print] calls of the
    source only write to stdout and are left out. *)

From Stdlib Require Import String Ascii List ZArith Lia.
From stdpp Require Import base option list gmap strings pretty.

Local Open Scope string_scope.
Local Open Scope list_scope.

(** ** Python values *)

(** What [json.loads] can produce and what the code builds with dict and
    list literals.  Dicts keep insertion order, as Python's do.  Numbers
    are never inspected by the code: they are only carried around, hashed
    (never equal to a [str] key) and serialised. *)
#[warnings="-register-all"] Inductive value : Type :=
| VNone
| VBool (b : bool)
| VNum (n : Z)
| VStr (s : string)
| VList (l : list value)
| VDict (d : list (string * value)).

Definition py_type_name (v : value) : string :=
  match v with
  | VNone => "NoneType"
  | VBool _ => "bool"
  | VNum _ => "int"
  | VStr _ => "str"
  | VList _ => "list"
  | VDict _ => "dict"
  end.

(** [d[k]] on the association list of a dict: the binding of [k]. *)
Fixpoint dict_lookup (d : list (string * value)) (k : string) : option value :=
  match d with
  | [] => None
  | (k', v) :: d' => if String.eqb k' k then Some v else dict_lookup d' k
  end.

(** [d.get(k)]: the binding, or [None] when the key is absent. *)
Definition dict_get (d : list (string * value)) (k : string) : value :=
  default VNone (dict_lookup d k).

(** [sep.join(l)] *)
Fixpoint join (sep : string) (l : list string) : string :=
  match l with
  | [] => EmptyString
  | [s] => s
  | s :: l' => s +:+ sep +:+ join sep l'
  end.

(** ** Exceptions

    Every constructor is a subclass of Python's [Exception], which is what
    [except Exception] catches. *)
Inductive exn : Type :=
| IndexError                                   (* [choices[0]] on an empty list *)
| AttributeError (type_name attr : string)     (* [x.attr] when [x] has no [attr] *)
| TypeError_not_mapping (callee type_name : string) (* [f( **x )] when [x] is no dict *)
| TypeError_unhashable (type_name : string)    (* [x in d] when [x] is a list or a dict *)
| TypeError_json_input (type_name : string)    (* [json.loads(x)] when [x] is no [str] *)
| Raised (class msg : string).                 (* raised by a collaborator *)

(** [str(e)], with CPython's texts for the interpreter's own errors.  The
    error of a call with [**] names the function called, by its qualified
    name. *)
Definition exn_str (e : exn) : string :=
  match e with
  | IndexError => "list index out of range"
  | AttributeError ty a => "'" +:+ ty +:+ "' object has no attribute '" +:+ a +:+ "'"
  | TypeError_not_mapping f ty =>
      f +:+ "() argument after ** must be a mapping, not " +:+ ty
  | TypeError_unhashable ty => "unhashable type: '" +:+ ty +:+ "'"
  | TypeError_json_input ty =>
      "the JSON object must be str, bytes or bytearray, not " +:+ ty
  | Raised _ msg => msg
  end.

(** ** The chat endpoint's reply (openai's [ChatCompletion]) *)

Record FunctionCall := { fc_name : string; fc_arguments : string }.

Record ChatCompletionMessage := {
  content : option string;
  function_call : option FunctionCall
}.

Record Choice := { finish_reason : string; message : ChatCompletionMessage }.

Record ChatCompletion := { choices : list Choice }.

(** [content] as a Python value. *)
Definition content_value (c : option string) : value :=
  match c with Some s => VStr s | None => VNone end.

(** ** Results of running Python code

    A computation starts in a world and either returns a value, raises an
    exception, or is still running when the fuel is used up. *)
Inductive res (W A : Type) : Type :=
| Ret (a : A) (w : W)
| Raise (e : exn) (w : W)
| OutOfFuel.
Arguments Ret {W A} a w.
Arguments Raise {W A} e w.
Arguments OutOfFuel {W A}.

Definition M (W A : Type) : Type := W -> res W A.

Definition ret {W A} (a : A) : M W A := fun w => Ret a w.
Definition raise {W A} (e : exn) : M W A := fun w => Raise e w.
Definition bind {W A B} (m : M W A) (k : A -> M W B) : M W B :=
  fun w => match m w with
           | Ret a w' => k a w'
           | Raise e w' => Raise e w'
           | OutOfFuel => OutOfFuel
           end.

(** [try: m  except Exception as e: h e] *)
Definition try_except {W A} (m : M W A) (h : exn -> M W A) : M W A :=
  fun w => match m w with
           | Ret a w' => Ret a w'
           | Raise e w' => h e w'
           | OutOfFuel => OutOfFuel
           end.

Notation "'let!' x ':=' m 'in' k" := (bind m (fun x => k))
  (at level 10, x name, m at level 100, k at level 200).

(** A call into a collaborator returns or raises; it has no fuel. *)
Definition ext (W A : Type) : Type := W -> (exn + A) * W.

Definition call {W A} (f : ext W A) : M W A :=
  fun w => match f w with
           | (inr a, w') => Ret a w'
           | (inl e, w') => Raise e w'
           end.

(** A pure library call that returns or raises. *)
Definition pure {W A} (r : exn + A) : M W A :=
  match r with inr a => ret a | inl e => raise e end.

(** ** Collaborators

    What the module reaches outside itself: the model endpoint
    ([client.chat.completions.create], with the [messages] and the
    [functions] argument, [None] also standing for a call that passes no
    [functions]; model name and temperature are constants), the [json]
    library ([json_dumps] is [json.dumps] with [indent=2]), [repr] of a
    tool result, and the two tools, called with the keyword arguments the
    model chose.  The endpoint and the tools act on the world: the same
    call may answer differently from one world to the next. *)
Record Env := {
  World : Type;
  chat_completions_create :
    list value -> option (list value) -> ext World ChatCompletion;
  json_loads : string -> exn + value;
  json_dumps : value -> string;
  repr : value -> string;
  search_news : list (string * value) -> ext World value;
  scrape_news_article : list (string * value) -> ext World value
}.

(** [str(v)]: a [str] is its own text, any other value prints as its
    [repr]. *)
Definition py_str (E : Env) (v : value) : string :=
  match v with
  | VStr s => s
  | _ => repr E v
  end.

(** [x[0]] on a list *)
Definition index0 {W A} (l : list A) : M W A :=
  match l with
  | x :: _ => ret x
  | [] => raise IndexError
  end.

(** ** SwarmAgent *)
Module SwarmAgent.

Record t := {
  name : string;
  description : string;
  tools : list value;
  system_message : string
}.

(** [__init__]; [tools or []] is [tools] itself for a list. *)
Definition init (name description : string) (tools : list value) : t :=
  {| name := name;
     description := description;
     tools := tools;
     system_message :=
       "You are " +:+ name +:+ ". " +:+ description +:+ "
        You have access to tools for searching news and analyzing articles.
        Use these tools to provide accurate and comprehensive news analysis." |}.

Section Run.
Variable E : Env.
Abbreviation W := (World E).

(** [self.tool_implementations], the same two entries for every agent. *)
Definition tool_implementations
  : gmap string (list (string * value) -> ext W value) :=
  <["search_news" := search_news E]>
    (<["scrape_news_article" := scrape_news_article E]> ∅).

(** The default of [tool_implementations.get]: the lambda that answers for
    a name that is not registered. *)
Definition not_found (function_name : string)
  : list (string * value) -> ext W value :=
  fun _ w => (inr (VStr ("Error: Function " +:+ function_name +:+ " not found")), w).

(** The qualified name of the function [tool_implementations.get] gives,
    as CPython prints it for the module [news_swarm]: a registered tool is
    the module's function of the same name, any other name gets the lambda
    written inside [run]. *)
Definition callee (function_name : string) : string :=
  match tool_implementations !! function_name with
  | Some _ => "news_swarm." +:+ function_name
  | None => "news_swarm.SwarmAgent.run.<locals>.<lambda>"
  end.

(** [self.tool_implementations.get(function_name, lambda ...)( **function_args )] *)
Definition invoke (function_name : string) (function_args : value) : M W value :=
  let f := default (not_found function_name)
                   (tool_implementations !! function_name) in
  match function_args with
  | VDict kwargs => call (f kwargs)
  | v => raise (TypeError_not_mapping (callee function_name) (py_type_name v))
  end.

(** [functions=self.tools if self.tools else None] *)
Definition functions_arg (self : t) : option (list value) :=
  match tools self with
  | [] => None
  | ts => Some ts
  end.

(** The two messages one resolved tool call appends. *)
Definition tool_messages (fc : FunctionCall) (function_response : value)
  : list value :=
  [ VDict [ ("role", VStr "assistant");
            ("content", VNone);
            ("function_call",
              VDict [ ("name", VStr (fc_name fc));
                      ("arguments", VStr (fc_arguments fc)) ]) ];
    VDict [ ("role", VStr "function");
            ("name", VStr (fc_name fc));
            ("content", VStr (py_str E function_response)) ] ].

(** [response.choices[0].message.function_call], whose [name] is read next. *)
Definition requested_call (c : Choice) : M W FunctionCall :=
  match function_call (message c) with
  | Some fc => ret fc
  | None => raise (AttributeError "NoneType" "name")
  end.

(** One pass through the body of the [while]: resolve the tool call of [c],
    extend the conversation, ask the model again. *)
Definition round (self : t) (messages : list value) (c : Choice)
  : M W (list value * ChatCompletion) :=
  let! fc := requested_call c in
  let! function_args := pure (json_loads E (fc_arguments fc)) in
  let! function_response := invoke (fc_name fc) function_args in
  let messages' := (messages ++ tool_messages fc function_response)%list in
  let! response := call (chat_completions_create E messages' (functions_arg self)) in
  ret (messages', response).

(** [while response.choices[0].finish_reason == "function_call": ...],
    giving the response the loop ends on.  One unit of fuel per evaluation
    of the loop condition. *)
Fixpoint tool_loop (fuel : nat) (self : t) (messages : list value)
         (response : ChatCompletion) : M W ChatCompletion :=
  match fuel with
  | O => fun _ => OutOfFuel
  | S fuel' =>
      let! c := index0 (choices response) in
      if String.eqb (finish_reason c) "function_call" then
        let! mr := round self messages c in
        tool_loop fuel' self (fst mr) (snd mr)
      else ret response
  end.

(** The conversation [run] starts from. *)
Definition initial_messages (self : t) (prompt : value) : list value :=
  [ VDict [("role", VStr "system"); ("content", VStr (system_message self))];
    VDict [("role", VStr "user"); ("content", prompt)] ].

Definition data_value (c : Choice) : value :=
  VDict [("data", VDict [("output", content_value (content (message c)))])].

Definition error_value (e : exn) : value :=
  VDict [("error", VStr ("Error in agent execution: " +:+ exn_str e))].

(** The body of the [try] in [run]. *)
Definition run_body (fuel : nat) (self : t) (prompt : value) : M W value :=
  let messages := initial_messages self prompt in
  let! response := call (chat_completions_create E messages (functions_arg self)) in
  let! response := tool_loop fuel self messages response in
  let! c := index0 (choices response) in
  ret (data_value c).

(** [SwarmAgent.run] *)
Definition run (fuel : nat) (self : t) (prompt : value) : M W value :=
  try_except (run_body fuel self prompt) (fun e => ret (error_value e)).

End Run.
End SwarmAgent.

(** ** OrchestratorAgent *)
Module OrchestratorAgent.

(** A [SwarmAgent] with a mapping from agent names to sub-agents; the
    mapping is a Python dict, kept in insertion order. *)
Record t := {
  base : SwarmAgent.t;
  sub_agents : list (string * SwarmAgent.t)
}.

Definition search_news_spec : value :=
  VDict [ ("name", VStr "search_news");
          ("description", VStr "Search for news articles");
          ("parameters",
            VDict [ ("type", VStr "object");
                    ("properties", VDict [("query", VDict [("type", VStr "string")])]);
                    ("required", VList [VStr "query"]) ]) ].

Definition scrape_news_article_spec : value :=
  VDict [ ("name", VStr "scrape_news_article");
          ("description", VStr "Scrape and analyze news article content");
          ("parameters",
            VDict [ ("type", VStr "object");
                    ("properties",
                      VDict [ ("url", VDict [("type", VStr "string")]);
                              ("analyze", VDict [("type", VStr "boolean")]) ]);
                    ("required", VList [VStr "url"]) ]) ].

(** [__init__] *)
Definition init (sub_agents : list (string * SwarmAgent.t)) : t :=
  {| base :=
       SwarmAgent.init "News Orchestrator"
         "I coordinate between specialized agents to perform comprehensive news analysis"
         [search_news_spec; scrape_news_article_spec];
     sub_agents := sub_agents |}.

(** [self.sub_agents[k]] for a [str] key. *)
Fixpoint agent_lookup (agents : list (string * SwarmAgent.t)) (k : string)
  : option SwarmAgent.t :=
  match agents with
  | [] => None
  | (k', a) :: agents' => if String.eqb k' k then Some a else agent_lookup agents' k
  end.

(** [agent_name in self.sub_agents], together with
    [self.sub_agents[agent_name]] when it holds.  Membership hashes the
    key: a list or a dict raises, and no other value equals a [str] key. *)
Definition resolve (self : t) (agent_name : value) : exn + option SwarmAgent.t :=
  match agent_name with
  | VStr k => inr (agent_lookup (sub_agents self) k)
  | VList _ | VDict _ => inl (TypeError_unhashable (py_type_name agent_name))
  | VNone | VBool _ | VNum _ => inr None
  end.

(** [task.get(k)] *)
Definition task_get {W} (task : value) (k : string) : M W value :=
  match task with
  | VDict d => ret (dict_get d k)
  | v => raise (AttributeError (py_type_name v) "get")
  end.

(** The dict appended to [results] for a dispatched step. *)
Definition sub_agent_result (agent_name sub_task result : value) : value :=
  VDict [("agent", agent_name); ("task", sub_task); ("result", result)].

Definition planning_messages (self : t) (prompt : value) : list value :=
  [ VDict [ ("role", VStr "system");
            ("content", VStr ("You are a news analysis orchestrator.
                Available agents: " +:+ join ", " (map fst (sub_agents self)) +:+ ".
                Create a plan to analyze news content and return as JSON array with:
                - agent_name: which agent to use
                - sub_task: specific task for the agent")) ];
    VDict [ ("role", VStr "user"); ("content", prompt) ] ].

(** [tasks] after [if not isinstance(tasks, list): tasks = [tasks]] *)
Definition as_task_list (tasks : value) : list value :=
  match tasks with
  | VList l => l
  | v => [v]
  end.

Section Run.
Variable E : Env.
Abbreviation W := (World E).

(** [json.loads(message.content)]: [content] is a [str] or [None]. *)
Definition loads_content (c : option string) : exn + value :=
  match c with
  | Some s => json_loads E s
  | None => inl (TypeError_json_input "NoneType")
  end.

(** Phase 1: ask for a plan and parse it into the list of tasks. *)
Definition plan (self : t) (prompt : value) : M W (list value) :=
  let! planning_response :=
    call (chat_completions_create E (planning_messages self prompt) None) in
  let! c := index0 (choices planning_response) in
  let! tasks := pure (loads_content (content (message c))) in
  ret (as_task_list tasks).

(** Phase 2: [for task in tasks: ...], with [results] as accumulated so
    far.  Every sub-agent run gets the fuel [fuel]. *)
Fixpoint dispatch (fuel : nat) (self : t) (tasks : list value)
         (results : list value) : M W (list value) :=
  match tasks with
  | [] => ret results
  | task :: tasks' =>
      let! agent_name := task_get task "agent_name" in
      let! sub_task := task_get task "sub_task" in
      let! target := pure (resolve self agent_name) in
      match target with
      | Some agent =>
          let! result := SwarmAgent.run E fuel agent sub_task in
          dispatch fuel self tasks'
            (results ++ [sub_agent_result agent_name sub_task result])%list
      | None => dispatch fuel self tasks' results
      end
  end.

Definition synthesis_messages (results : list value) : list value :=
  [ VDict [ ("role", VStr "system");
            ("content",
              VStr "Synthesize the news analysis results into a final report.") ];
    VDict [ ("role", VStr "user");
            ("content", VStr ("Results: " +:+ json_dumps E (VList results))) ] ].

Definition report (c : Choice) (results : list value) : value :=
  VDict [ ("data",
            VDict [ ("output", content_value (content (message c)));
                    ("analysis_results", VList results) ]) ].

(** Phase 3: ask for the synthesis and build the report. *)
Definition synthesize (results : list value) : M W value :=
  let! synthesis :=
    call (chat_completions_create E (synthesis_messages results) None) in
  let! c := index0 (choices synthesis) in
  ret (report c results).

Definition error_value (e : exn) : value :=
  VDict [("error", VStr ("Orchestration error: " +:+ exn_str e))].

(** The body of the [try] in [run]. *)
Definition run_body (fuel : nat) (self : t) (prompt : value) : M W value :=
  let! tasks := plan self prompt in
  let! results := dispatch fuel self tasks [] in
  synthesize results.

(** [OrchestratorAgent.run] *)
Definition run (fuel : nat) (self : t) (prompt : value) : M W value :=
  try_except (run_body fuel self prompt) (fun e => ret (error_value e)).

End Run.
End OrchestratorAgent.

(** * Notions used in the statements *)

(** The loop condition of [SwarmAgent.run]. *)
Definition continues (response : ChatCompletion) : bool :=
  match choices response with
  | c :: _ => String.eqb (finish_reason c) "function_call"
  | [] => false
  end.

(** The two shapes of an [AgentRunResult]. *)
Definition agent_result (v : value) : Prop :=
  (exists c, v = SwarmAgent.data_value c) \/ (exists e, v = SwarmAgent.error_value e).

(** The two shapes of the orchestrator's value: a report or an error. *)
Definition orchestrator_result (v : value) : Prop :=
  (exists c results, v = OrchestratorAgent.report c results)
  \/ (exists e, v = OrchestratorAgent.error_value e).

(** A task the dispatch loop runs through without raising: a JSON object
    whose [agent_name], if any, is hashable. *)
Definition plan_step (task : value) : bool :=
  match task with
  | VDict d =>
      match dict_get d "agent_name" with
      | VList _ | VDict _ => false
      | _ => true
      end
  | _ => false
  end.

(** The call a task stands for: the key, the sub-agent registered under it
    and the sub-task; [None] when the name is no key of the mapping. *)
Definition resolved_step (self : OrchestratorAgent.t) (task : value)
  : option (string * SwarmAgent.t * value) :=
  match task with
  | VDict d =>
      match dict_get d "agent_name" with
      | VStr k =>
          match OrchestratorAgent.agent_lookup (OrchestratorAgent.sub_agents self) k with
          | Some agent => Some (k, agent, dict_get d "sub_task")
          | None => None
          end
      | _ => None
      end
  | _ => None
  end.

Definition resolved_steps (self : OrchestratorAgent.t) (tasks : list value)
  : list (string * SwarmAgent.t * value) :=
  omap (resolved_step self) tasks.

(** The entry a call contributes, given what the sub-agent returned. *)
Definition entry_of (step : string * SwarmAgent.t * value) (result : value) : value :=
  OrchestratorAgent.sub_agent_result (VStr step.1.1) step.2 result.

Section Notions.
Variable E : Env.
Abbreviation W := (World E).

(** At most [n] passes through the body of the [while], stopping at the
    first response that does not ask for a tool: the conversation and the
    response the loop has reached by then. *)
Fixpoint iterate_rounds (n : nat) (self : SwarmAgent.t) (messages : list value)
         (response : ChatCompletion) : M W (list value * ChatCompletion) :=
  match n with
  | O => ret (messages, response)
  | S n' =>
      let! c := index0 (choices response) in
      if String.eqb (finish_reason c) "function_call" then
        let! mr := SwarmAgent.round E self messages c in
        iterate_rounds n' self (fst mr) (snd mr)
      else ret (messages, response)
  end.

(** Environments in which tool-call requests run out: [budget w] bounds
    the requests the endpoint can still make from world [w] on; no call
    raises it, and a reply that asks for a tool lowers it. *)
Record bounded (budget : W -> nat) : Prop := {
  chat_budget : forall msgs fns w,
    budget (snd (chat_completions_create E msgs fns w)) <= budget w;
  chat_budget_request : forall msgs fns w r w',
    chat_completions_create E msgs fns w = (inr r, w') ->
    continues r = true -> budget w' < budget w;
  search_budget : forall kw w, budget (snd (search_news E kw w)) <= budget w;
  scrape_budget : forall kw w, budget (snd (scrape_news_article E kw w)) <= budget w
}.

(** The computation came to an end, in a world of budget at most [b]. *)
Definition ends_within {A} (budget : W -> nat) (b : nat) (r : res W A) : Prop :=
  match r with
  | Ret _ w' | Raise _ w' => budget w' <= b
  | OutOfFuel => False
  end.

(** The dispatch phase in the words of the specification: run the resolved
    calls one after the other, appending one entry each. *)
Fixpoint invoke_all (fuel : nat) (steps : list (string * SwarmAgent.t * value))
         (results : list value) : M W (list value) :=
  match steps with
  | [] => ret results
  | step :: steps' =>
      let! result := SwarmAgent.run E fuel step.1.2 step.2 in
      invoke_all fuel steps' (results ++ [entry_of step result])
  end.

(** A reply that asks for a tool, with arguments that parse to an object
    and a call that returns. *)
Definition requests_tool (r : ChatCompletion) : Prop :=
  exists c cs fc kwargs,
    choices r = c :: cs /\
    finish_reason c = "function_call" /\
    function_call (message c) = Some fc /\
    json_loads E (fc_arguments fc) = inr (VDict kwargs) /\
    forall w : W, exists v w',
      SwarmAgent.invoke E (fc_name fc) (VDict kwargs) w = Ret v w'.

(** The endpoint answers every call with such a reply. *)
Definition always_requests : Prop :=
  forall msgs fns (w : W), exists r w',
    chat_completions_create E msgs fns w = (inr r, w') /\ requests_tool r.

End Notions.

(** * Concrete collaborators

    A JSON reader and writer, Python's [str], and a scripted endpoint, to
    run the agents on concrete conversations. *)

Module Json.

Definition quote : ascii := "034"%char.

Definition is_space (a : ascii) : bool :=
  match a with
  | " "%char | "009"%char | "010"%char | "013"%char => true
  | _ => false
  end.

Fixpoint skip_ws (s : list ascii) : list ascii :=
  match s with
  | a :: s' => if is_space a then skip_ws s' else s
  | [] => []
  end.

Definition digit (a : ascii) : option Z :=
  let n := Z.of_nat (nat_of_ascii a) in
  if (48 <=? n)%Z && (n <=? 57)%Z then Some (n - 48)%Z else None.

(** The digits at the front of [s], read in base ten onto [acc]. *)
Fixpoint read_digits (s : list ascii) (acc : Z) : Z * list ascii :=
  match s with
  | a :: s' =>
      match digit a with
      | Some d => read_digits s' (10 * acc + d)%Z
      | None => (acc, s)
      end
  | [] => (acc, [])
  end.

(** The characters up to the closing quote; escapes are not read. *)
Fixpoint read_string (s : list ascii) (acc : list ascii)
  : option (string * list ascii) :=
  match s with
  | a :: s' =>
      if Ascii.eqb a quote then Some (string_of_list_ascii (rev acc), s')
      else if Ascii.eqb a "\"%char then None
      else read_string s' (a :: acc)
  | [] => None
  end.

(** [d[k] = v] *)
Fixpoint dict_set (d : list (string * value)) (k : string) (v : value)
  : list (string * value) :=
  match d with
  | [] => [(k, v)]
  | (k', v') :: d' =>
      if String.eqb k' k then (k, v) :: d' else (k', v') :: dict_set d' k v
  end.

(** The elements of an array after the first bracket, [pv] reading one
    value. *)
Fixpoint elements (pv : list ascii -> option (value * list ascii)) (n : nat)
         (s : list ascii) (acc : list value) : option (list value * list ascii) :=
  match n with
  | O => None
  | S n' =>
      match pv s with
      | Some (v, r) =>
          match skip_ws r with
          | ","%char :: r' => elements pv n' r' (acc ++ [v])
          | "]"%char :: r' => Some (acc ++ [v], r')
          | _ => None
          end
      | None => None
      end
  end.

(** The members of an object after the first brace. *)
Fixpoint members (pv : list ascii -> option (value * list ascii)) (n : nat)
         (s : list ascii) (acc : list (string * value))
  : option (list (string * value) * list ascii) :=
  match n with
  | O => None
  | S n' =>
      match skip_ws s with
      | a :: r =>
          if Ascii.eqb a quote then
            match read_string r [] with
            | Some (k, r1) =>
                match skip_ws r1 with
                | ":"%char :: r2 =>
                    match pv r2 with
                    | Some (v, r3) =>
                        match skip_ws r3 with
                        | ","%char :: r4 => members pv n' r4 (dict_set acc k v)
                        | "}"%char :: r4 => Some (dict_set acc k v, r4)
                        | _ => None
                        end
                    | None => None
                    end
                | _ => None
                end
            | None => None
            end
          else None
      | [] => None
      end
  end.

Fixpoint parse_value (fuel : nat) (s : list ascii) : option (value * list ascii) :=
  match fuel with
  | O => None
  | S fuel' =>
      match skip_ws s with
      | "n"%char :: "u"%char :: "l"%char :: "l"%char :: r => Some (VNone, r)
      | "t"%char :: "r"%char :: "u"%char :: "e"%char :: r => Some (VBool true, r)
      | "f"%char :: "a"%char :: "l"%char :: "s"%char :: "e"%char :: r =>
          Some (VBool false, r)
      | "["%char :: r =>
          match skip_ws r with
          | "]"%char :: r' => Some (VList [], r')
          | _ =>
              match elements (parse_value fuel') fuel' r [] with
              | Some (l, r') => Some (VList l, r')
              | None => None
              end
          end
      | "{"%char :: r =>
          match skip_ws r with
          | "}"%char :: r' => Some (VDict [], r')
          | _ =>
              match members (parse_value fuel') fuel' r [] with
              | Some (d, r') => Some (VDict d, r')
              | None => None
              end
          end
      | "-"%char :: a :: r =>
          match digit a with
          | Some _ => let (n, r') := read_digits (a :: r) 0 in Some (VNum (- n), r')
          | None => None
          end
      | a :: r =>
          if Ascii.eqb a quote then
            match read_string r [] with
            | Some (str, r') => Some (VStr str, r')
            | None => None
            end
          else
            match digit a with
            | Some _ => let (n, r') := read_digits (a :: r) 0 in Some (VNum n, r')
            | None => None
            end
      | [] => None
      end
  end.

(** [json.loads] on texts without escapes, fractions or exponents. *)
Definition loads (s : string) : exn + value :=
  let l := list_ascii_of_string s in
  match parse_value (S (length l)) l with
  | Some (v, r) =>
      match skip_ws r with
      | [] => inr v
      | _ => inl (Raised "JSONDecodeError" "Extra data")
      end
  | None => inl (Raised "JSONDecodeError" "Expecting value")
  end.

Definition quoted (s : string) : string :=
  String quote (s +:+ String quote EmptyString).

Definition newline : string := String "010"%char EmptyString.

Fixpoint spaces (n : nat) : string :=
  match n with
  | O => EmptyString
  | S n' => String " "%char (spaces n')
  end.

(** [json.dumps(v, indent=2)] at nesting depth [depth], for strings that
    need no escape. *)
Fixpoint dumps_at (depth : nat) (v : value) : string :=
  match v with
  | VNone => "null"
  | VBool true => "true"
  | VBool false => "false"
  | VNum n => pretty n
  | VStr s => quoted s
  | VList [] => "[]"
  | VList l =>
      let item v := spaces (2 * S depth) +:+ dumps_at (S depth) v in
      "[" +:+ newline +:+
      (fix items (l : list value) : string :=
         match l with
         | [] => EmptyString
         | [v] => item v
         | v :: l' => item v +:+ "," +:+ newline +:+ items l'
         end) l
      +:+ newline +:+ spaces (2 * depth) +:+ "]"
  | VDict [] => "{}"
  | VDict d =>
      let member (kv : string * value) :=
        spaces (2 * S depth) +:+ quoted kv.1 +:+ ": " +:+ dumps_at (S depth) kv.2 in
      "{" +:+ newline +:+
      (fix items (d : list (string * value)) : string :=
         match d with
         | [] => EmptyString
         | [kv] => member kv
         | kv :: d' => member kv +:+ "," +:+ newline +:+ items d'
         end) d
      +:+ newline +:+ spaces (2 * depth) +:+ "}"
  end.

Definition dumps (v : value) : string := dumps_at 0 v.

End Json.

(** [repr(v)], for strings that need no escape. *)
Fixpoint py_repr (v : value) : string :=
  match v with
  | VNone => "None"
  | VBool true => "True"
  | VBool false => "False"
  | VNum n => pretty n
  | VStr s => "'" +:+ s +:+ "'"
  | VList l =>
      "[" +:+
      (fix items (l : list value) : string :=
         match l with
         | [] => EmptyString
         | [v] => py_repr v
         | v :: l' => py_repr v +:+ ", " +:+ items l'
         end) l
      +:+ "]"
  | VDict d =>
      "{" +:+
      (fix items (d : list (string * value)) : string :=
         match d with
         | [] => EmptyString
         | [kv] => "'" +:+ kv.1 +:+ "': " +:+ py_repr kv.2
         | kv :: d' => "'" +:+ kv.1 +:+ "': " +:+ py_repr kv.2 +:+ ", " +:+ items d'
         end) d
      +:+ "}"
  end.

(** A reply that ends the conversation. *)
Definition final_choice (text : string) : Choice :=
  {| finish_reason := "stop";
     message := {| content := Some text; function_call := None |} |}.

Definition final_reply (text : string) : ChatCompletion :=
  {| choices := [final_choice text] |}.

(** A reply that asks for the tool [name] with the JSON text [arguments]. *)
Definition tool_request (name arguments : string) : ChatCompletion :=
  {| choices :=
       [ {| finish_reason := "function_call";
            message := {| content := None;
                          function_call :=
                            Some {| fc_name := name; fc_arguments := arguments |} |} |} ] |}.

(** Binding the keyword arguments of [search_news(query)]. *)
Definition binds_search_news (kwargs : list (string * value)) : bool :=
  match kwargs with
  | [(k, _)] => String.eqb k "query"
  | _ => false
  end.

(** Binding the keyword arguments of [scrape_news_article(url, analyze=True)]. *)
Definition binds_scrape_news_article (kwargs : list (string * value)) : bool :=
  match kwargs with
  | [(k, _)] => String.eqb k "url"
  | [(k1, _); (k2, _)] =>
      (String.eqb k1 "url" && String.eqb k2 "analyze")
      || (String.eqb k1 "analyze" && String.eqb k2 "url")
  | _ => false
  end.

(** The tools with the network down: the search finds no article and the
    scraper cannot reach the page.  Both catch their own failures and
    raise only when their keyword arguments do not bind. *)
Definition offline_search_news {W} (kwargs : list (string * value)) : ext W value :=
  fun w =>
    if binds_search_news kwargs then (inr (VStr "[]"), w)
    else (inl (Raised "TypeError" "search_news() got unexpected arguments"), w).

Definition offline_scrape_news_article {W} (kwargs : list (string * value))
  : ext W value :=
  fun w =>
    if binds_scrape_news_article kwargs
    then (inr (VStr "Error scraping article: connection refused"), w)
    else (inl (Raised "TypeError" "scrape_news_article() got unexpected arguments"), w).

(** The scripted environment: the world is the list of replies (or
    exceptions) the endpoint still has to give, one per call; once the
    script is used up every call gives [default]. *)
Definition scripted (default : exn + ChatCompletion) : Env :=
  {| World := list (exn + ChatCompletion);
     chat_completions_create := fun _ _ w =>
       match w with
       | r :: w' => (r, w')
       | [] => (default, [])
       end;
     json_loads := Json.loads;
     json_dumps := Json.dumps;
     repr := py_repr;
     search_news := offline_search_news;
     scrape_news_article := offline_scrape_news_article |}.

(** An endpoint that closes the conversation once its script is used up. *)
Definition closing : Env := scripted (inr (final_reply "done")).

(** JSON text of [{"query": q}] *)
Definition query_arguments (q : string) : string :=
  "{" +:+ Json.quoted "query" +:+ ": " +:+ Json.quoted q +:+ "}".

(** An endpoint that asks for a news search whatever it is told; the
    world counts the calls it received. *)
Definition endless : Env :=
  {| World := nat;
     chat_completions_create := fun _ _ n =>
       (inr (tool_request "search_news" (query_arguments "ai")), S n);
     json_loads := Json.loads;
     json_dumps := Json.dumps;
     repr := py_repr;
     search_news := offline_search_news;
     scrape_news_article := offline_scrape_news_article |}.

(** JSON text of the plan step [{"agent_name": a, "sub_task": t}] *)
Definition step_text (a t : string) : string :=
  "{" +:+ Json.quoted "agent_name" +:+ ": " +:+ Json.quoted a +:+ ", "
      +:+ Json.quoted "sub_task" +:+ ": " +:+ Json.quoted t +:+ "}".

(** The agents of the module's [__main__]. *)
Definition news_searcher : SwarmAgent.t :=
  SwarmAgent.init "News Searcher"
    "Specializes in finding relevant news articles from reliable sources"
    [OrchestratorAgent.search_news_spec].

Definition content_analyzer : SwarmAgent.t :=
  SwarmAgent.init "Content Analyzer"
    "Analyzes news article content for key information and patterns"
    [OrchestratorAgent.scrape_news_article_spec].

Definition orchestrator : OrchestratorAgent.t :=
  OrchestratorAgent.init
    [("news_searcher", news_searcher); ("content_analyzer", content_analyzer)].

(** ** Plans and scripts of the examples *)

(** A plan with one step for the news searcher. *)
Definition one_step_plan : string :=
  "[" +:+ step_text "news_searcher" "find X" +:+ "]".

(** The endpoint gives the plan, then the searcher's answer, then fails. *)
Definition failing_synthesis : World closing :=
  [ inr (final_reply one_step_plan);
    inr (final_reply "Three articles found.");
    inl (Raised "APIConnectionError" "Connection error.") ].

Definition searcher_entry : value :=
  VDict [ ("agent", VStr "news_searcher");
          ("task", VStr "find X");
          ("result", VDict [("data", VDict [("output", VStr "Three articles found.")])]) ].

(** The model asks for a tool that does not exist, then closes. *)
Definition unknown_tool_script : World closing :=
  [ inr (tool_request "get_weather" "{}");
    inr (final_reply "I cannot look up the weather.") ].

(** A plan whose first step names an agent that is not registered. *)
Definition mixed_plan : list value :=
  [ VDict [("agent_name", VStr "searcher"); ("sub_task", VStr "find X")];
    VDict [("agent_name", VStr "content_analyzer"); ("sub_task", VStr "read Y")] ].

(** The scenario of the specification: one step, for an agent called
    [searcher] that is not registered. *)
Definition unregistered_plan : string := "[" +:+ step_text "searcher" "find X" +:+ "]".

(** Two steps for registered agents, given in the opposite order of the
    mapping, around one that does not resolve. *)
Definition ordered_plan : string :=
  "[" +:+ step_text "content_analyzer" "read Y" +:+ ", "
      +:+ step_text "searcher" "find X" +:+ ", "
      +:+ step_text "news_searcher" "find Z" +:+ "]".

Definition ordered_script : World closing :=
  [ inr (final_reply ordered_plan);
    inr (final_reply "Y is about chips.");
    inr (final_reply "Z was found twice.");
    inr (final_reply "Report.") ].

Definition ordered_results : list value :=
  [ VDict [ ("agent", VStr "content_analyzer"); ("task", VStr "read Y");
            ("result", VDict [("data", VDict [("output", VStr "Y is about chips.")])]) ];
    VDict [ ("agent", VStr "news_searcher"); ("task", VStr "find Z");
            ("result", VDict [("data", VDict [("output", VStr "Z was found twice.")])]) ] ].

(** The searcher's endpoint call fails, the analyzer's does not. *)
Definition failing_step_plan : list value :=
  [ VDict [("agent_name", VStr "news_searcher"); ("sub_task", VStr "find X")];
    VDict [("agent_name", VStr "content_analyzer"); ("sub_task", VStr "read Y")] ].

(** A step whose [agent_name] is an array holding the name of a registered
    agent, and the plan that puts it before a step for that agent. *)
Definition unhashable_step : value :=
  VDict [("agent_name", VList [VStr "news_searcher"]); ("sub_task", VStr "find X")].

Definition unhashable_plan : string :=
  "[{" +:+ Json.quoted "agent_name" +:+ ": [" +:+ Json.quoted "news_searcher" +:+ "], "
       +:+ Json.quoted "sub_task" +:+ ": " +:+ Json.quoted "find X" +:+ "}, "
       +:+ step_text "news_searcher" "find X" +:+ "]".

(** * The tools of the module

    [search_news], [extract_article_content] and [scrape_news_article],
    the functions behind the two tool names. *)

(** ** Python operations on values *)

(** Results of pure code that may raise. *)
Definition and_then {A B} (r : exn + A) (k : A -> exn + B) : exn + B :=
  match r with
  | inr a => k a
  | inl e => inl e
  end.

Notation "'let?' x ':=' r 'in' k" := (and_then r (fun x => k))
  (at level 10, x name, r at level 100, k at level 200).

(** [bool(v)] *)
Definition truthy (v : value) : bool :=
  match v with
  | VNone => false
  | VBool b => b
  | VNum n => negb (Z.eqb n 0)
  | VStr s => negb (String.eqb s EmptyString)
  | VList l => match l with [] => false | _ => true end
  | VDict d => match d with [] => false | _ => true end
  end.

Definition not_subscriptable (v : value) : exn :=
  Raised "TypeError" ("'" +:+ py_type_name v +:+ "' object is not subscriptable").

(** [v[k]] for a [str] key [k] *)
Definition subscript (v : value) (k : string) : exn + value :=
  match v with
  | VDict d =>
      match dict_lookup d k with
      | Some x => inr x
      | None => inl (Raised "KeyError" ("'" +:+ k +:+ "'"))
      end
  | VList _ => inl (Raised "TypeError" "list indices must be integers or slices, not str")
  | VStr _ => inl (Raised "TypeError" "string indices must be integers, not 'str'")
  | _ => inl (not_subscriptable v)
  end.

(** [v[0]] *)
Definition subscript0 (v : value) : exn + value :=
  match v with
  | VList (x :: _) => inr x
  | VList [] => inl IndexError
  | VStr (String a _) => inr (VStr (String a EmptyString))
  | VStr EmptyString => inl (Raised "IndexError" "string index out of range")
  | VDict _ => inl (Raised "KeyError" "0")
  | _ => inl (not_subscriptable v)
  end.

(** [v.get(k, default)] *)
Definition get_method (v : value) (k : string) (default : value) : exn + value :=
  match v with
  | VDict d => inr (from_option id default (dict_lookup d k))
  | _ => inl (AttributeError (py_type_name v) "get")
  end.

(** The characters of a [str], each a [str] of length one. *)
Fixpoint characters (s : string) : list value :=
  match s with
  | EmptyString => []
  | String a s' => VStr (String a EmptyString) :: characters s'
  end.

(** What [for item in v] goes through. *)
Definition iterate (v : value) : exn + list value :=
  match v with
  | VList l => inr l
  | VDict d => inr (map (fun kv => VStr kv.1) d)
  | VStr s => inr (characters s)
  | _ => inl (Raised "TypeError" ("'" +:+ py_type_name v +:+ "' object is not iterable"))
  end.

(** [v[k] = x] for a [str] key [k] *)
Definition setitem (v : value) (k : string) (x : value) : exn + value :=
  match v with
  | VDict d => inr (VDict (Json.dict_set d k x))
  | VList _ => inl (Raised "TypeError" "list indices must be integers or slices, not str")
  | _ => inl (Raised "TypeError"
                ("'" +:+ py_type_name v +:+ "' object does not support item assignment"))
  end.

(** ** Code that calls collaborators and has no loop *)

Definition ext_ret {W A} (a : A) : ext W A := fun w => (inr a, w).

Definition ext_bind {W A B} (m : ext W A) (k : A -> ext W B) : ext W B :=
  fun w => match m w with
           | (inr a, w') => k a w'
           | (inl e, w') => (inl e, w')
           end.

Definition ext_pure {W A} (r : exn + A) : ext W A := fun w => (r, w).

(** [try: m  except Exception as e: h e] *)
Definition ext_try {W A} (m : ext W A) (h : exn -> ext W A) : ext W A :=
  fun w => match m w with
           | (inr a, w') => (inr a, w')
           | (inl e, w') => h e w'
           end.

Notation "'let*' x ':=' m 'in' k" := (ext_bind m (fun x => k))
  (at level 10, x name, m at level 100, k at level 200).

Module Tools.

(** The entry [search_news] makes of one item of the API's answer. *)
Definition formatted_item (item : value) : exn + value :=
  let? title := subscript item "title" in
  let? link := subscript item "link" in
  let? snippet := subscript item "snippet" in
  let? pagemap := get_method item "pagemap" (VDict []) in
  let? metatags := get_method pagemap "metatags" (VList [VDict []]) in
  let? first := subscript0 metatags in
  let? date := get_method first "article:published_time" VNone in
  inr (VDict [("title", title); ("link", link); ("snippet", snippet); ("date", date)]).

(** [for item in result['items']: formatted_results.append(...)] *)
Fixpoint formatted_items (items : list value) : exn + list value :=
  match items with
  | [] => inr []
  | item :: items' =>
      let? entry := formatted_item item in
      let? entries := formatted_items items' in
      inr (entry :: entries)
  end.

(** [formatted_results] for the decoded answer [result]. *)
Definition formatted_results (result : list (string * value)) : exn + list value :=
  match dict_lookup result "items" with
  | Some items => let? l := iterate items in formatted_items l
  | None => inr []
  end.

(** The system message of [extract_article_content]. *)
Definition analysis_instructions : string :=
  "You are a news analysis specialist. Extract and analyze article content according to this schema:
            {
                " +:+ Json.quoted "title" +:+ ": string,
                " +:+ Json.quoted "summary" +:+ ": string,
                " +:+ Json.quoted "quotes" +:+ ": [{" +:+ Json.quoted "text" +:+ ": string, "
    +:+ Json.quoted "speaker" +:+ ": string, " +:+ Json.quoted "context" +:+ ": string}],
                " +:+ Json.quoted "entities" +:+ ": [{" +:+ Json.quoted "name" +:+ ": string, "
    +:+ Json.quoted "type" +:+ ": string, " +:+ Json.quoted "sentiment" +:+ ": number}],
                " +:+ Json.quoted "sentiment_score" +:+ ": number (-1 to 1),
                " +:+ Json.quoted "topics" +:+ ": [string],
                " +:+ Json.quoted "category" +:+ ": string
            }".

Definition analysis_messages (text : value) : list value :=
  [ VDict [("role", VStr "system"); ("content", VStr analysis_instructions)];
    VDict [("role", VStr "user"); ("content", text)] ].

(** [url if url else None] *)
Definition url_or_none (url : value) : value :=
  if truthy url then url else VNone.

Section Tools.
Variable E : Env.
Abbreviation W := (World E).

(** What the tools reach outside the module, besides [json]:
    [cse_list_execute q] is the Custom Search request
    [build(...).cse().list(q=q, cx=..., num=5, dateRestrict="d7").execute()],
    giving the decoded JSON object of the answer;
    [create_json_object messages] is the endpoint called with
    [response_format={"type": "json_object"}];
    [get_text url] is [requests.get(url)] followed by the parse of the
    page, the removal of the script, style, nav, footer and aside elements
    and [soup.get_text()]. *)
Variable cse_list_execute : value -> ext W (list (string * value)).
Variable create_json_object : list value -> ext W ChatCompletion.
Variable get_text : value -> ext W string.

(** [search_news(query)] *)
Definition search_news (query : value) : ext W value :=
  ext_try
    (let* result := cse_list_execute query in
     let* formatted := ext_pure (formatted_results result) in
     ext_ret (VStr (json_dumps E (VList formatted))))
    (fun e => ext_ret (VStr ("Error performing news search: " +:+ exn_str e))).

(** The body of the [try] in [extract_article_content]. *)
Definition extract_body (text url : value) : ext W value :=
  let* response := create_json_object (analysis_messages text) in
  let* c := ext_pure (match choices response with
                      | c :: _ => inr c
                      | [] => inl IndexError
                      end) in
  let* article_json :=
    ext_pure (OrchestratorAgent.loads_content E (content (message c))) in
  if truthy url then ext_pure (setitem article_json "url" url)
  else ext_ret article_json.

(** [extract_article_content(text, url)]; the default of [url] is [None]. *)
Definition extract_article_content (text url : value) : ext W value :=
  ext_try (extract_body text url)
    (fun e => ext_ret (VDict [ ("error", VStr ("Failed to analyze article: " +:+ exn_str e));
                               ("url", url_or_none url) ])).

(** [scrape_news_article(url, analyze)] *)
Definition scrape_news_article (url analyze : value) : ext W value :=
  ext_try
    (let* text := get_text url in
     if truthy analyze then extract_article_content (VStr text) url
     else ext_ret (VStr text))
    (fun e => ext_ret (VStr ("Error scraping article: " +:+ exn_str e))).

(** The first keyword that names no parameter. *)
Definition unexpected_keyword (parameters : list string) (kwargs : list (string * value))
  : option string :=
  fst <$> List.find (fun kv => negb (existsb (String.eqb kv.1) parameters)) kwargs.

Definition unexpected_error (f k : string) : exn :=
  Raised "TypeError" (f +:+ "() got an unexpected keyword argument '" +:+ k +:+ "'").

Definition missing_error (f p : string) : exn :=
  Raised "TypeError" (f +:+ "() missing 1 required positional argument: '" +:+ p +:+ "'").

(** [search_news( **kwargs )] *)
Definition call_search_news (kwargs : list (string * value)) : ext W value :=
  match unexpected_keyword ["query"] kwargs with
  | Some k => ext_pure (inl (unexpected_error "search_news" k))
  | None =>
      match dict_lookup kwargs "query" with
      | Some query => search_news query
      | None => ext_pure (inl (missing_error "search_news" "query"))
      end
  end.

(** [scrape_news_article( **kwargs )]; [analyze] defaults to [True]. *)
Definition call_scrape_news_article (kwargs : list (string * value)) : ext W value :=
  match unexpected_keyword ["url"; "analyze"] kwargs with
  | Some k => ext_pure (inl (unexpected_error "scrape_news_article" k))
  | None =>
      match dict_lookup kwargs "url" with
      | Some url =>
          scrape_news_article url
            (from_option id (VBool true) (dict_lookup kwargs "analyze"))
      | None => ext_pure (inl (missing_error "scrape_news_article" "url"))
      end
  end.

End Tools.
End Tools.

(** The environment [E] with the two tool names bound to the functions of
    the module. *)
Definition with_tools (E : Env)
  (cse_list_execute : value -> ext (World E) (list (string * value)))
  (create_json_object : list value -> ext (World E) ChatCompletion)
  (get_text : value -> ext (World E) string) : Env :=
  {| World := World E;
     chat_completions_create := chat_completions_create E;
     json_loads := json_loads E;
     json_dumps := json_dumps E;
     repr := repr E;
     search_news := Tools.call_search_news E cse_list_execute;
     scrape_news_article :=
       Tools.call_scrape_news_article E create_json_object get_text |}.

(** ** A canned web *)

(** Two items as the search API gives them: the first with a publication
    time among its meta tags, the second without a page map. *)
Definition dated_item : value :=
  VDict [ ("title", VStr "Chips act passes");
          ("link", VStr "https://example.com/chips");
          ("snippet", VStr "The act passed on Tuesday.");
          ("pagemap",
            VDict [("metatags",
                     VList [VDict [("article:published_time",
                                     VStr "2024-03-20T15:30:00Z")]])]) ].

Definition undated_item : value :=
  VDict [ ("title", VStr "Markets react");
          ("link", VStr "https://example.com/markets");
          ("snippet", VStr "Shares rose.") ].

(** An item the API sent without its title. *)
Definition untitled_item : value :=
  VDict [ ("link", VStr "https://example.com/x"); ("snippet", VStr "No title.") ].

(** The search API answering with [items] as its items. *)
Definition canned_search (items : list value)
  : value -> ext (World closing) (list (string * value)) :=
  fun _ w => (inr [("kind", VStr "customsearch#search"); ("items", VList items)], w).

(** The search API answering that nothing was found: no [items] at all. *)
Definition bare_search : value -> ext (World closing) (list (string * value)) :=
  fun _ w => (inr [("kind", VStr "customsearch#search")], w).

(** The analysis endpoint following the script of the world, and failing
    once the script is used up. *)
Definition scripted_analysis : list value -> ext (World closing) ChatCompletion :=
  fun _ w => match w with
             | r :: w' => (r, w')
             | [] => (inl (Raised "APIConnectionError" "Connection error."), [])
             end.

(** Every page reading the same text. *)
Definition canned_page : value -> ext (World closing) string :=
  fun _ w => (inr "Article body.", w).

Definition canned (items : list value) : Env :=
  with_tools closing (canned_search items) scripted_analysis canned_page.

(** JSON text of an article with a url of the model's own. *)
Definition article_text : string :=
  "{" +:+ Json.quoted "title" +:+ ": " +:+ Json.quoted "Chips act passes" +:+ ", "
      +:+ Json.quoted "url" +:+ ": " +:+ Json.quoted "https://model.invalid/" +:+ ", "
      +:+ Json.quoted "category" +:+ ": " +:+ Json.quoted "politics" +:+ "}".

(** A plan whose second task is a number. *)
Definition broken_plan : string :=
  "[" +:+ step_text "news_searcher" "find X" +:+ ", 7, "
      +:+ step_text "content_analyzer" "read Y" +:+ "]".

(** ** Notions used in the statements about the tools *)

(** The publication time of an item as the search API documents it: the
    [article:published_time] of the first meta tag of the page map, absent
    when there is no page map or no meta tags.  [None] when the item has
    them in another shape. *)
Definition item_date (d : list (string * value)) : option value :=
  match dict_lookup d "pagemap" with
  | None => Some VNone
  | Some (VDict pagemap) =>
      match dict_lookup pagemap "metatags" with
      | None => Some VNone
      | Some (VList (VDict tag :: _)) => Some (dict_get tag "article:published_time")
      | Some _ => None
      end
  | Some _ => None
  end.

(** The entry expected for an item that has a title, a link and a snippet. *)
Definition expected_entry (item : value) : option value :=
  match item with
  | VDict d =>
      title ← dict_lookup d "title";
      link ← dict_lookup d "link";
      snippet ← dict_lookup d "snippet";
      date ← item_date d;
      Some (VDict [("title", title); ("link", link); ("snippet", snippet); ("date", date)])
  | _ => None
  end.

(** The roles of the messages a conversation holds, in order. *)
Definition roles (messages : list value) : list value :=
  map (fun m => match m with VDict d => dict_get d "role" | _ => VNone end) messages.

(** The value [extract_article_content] returns for the exception [e]. *)
Definition analysis_failure (e : exn) (url : value) : value :=
  VDict [ ("error", VStr ("Failed to analyze article: " +:+ exn_str e));
          ("url", if truthy url then url else VNone) ].

(** * Properties *)

(** ** The monad *)

Lemma bind_Ret {W A B} (m : M W A) (k : A -> M W B) w a w' :
  m w = Ret a w' -> bind m k w = k a w'.
Proof. unfold bind. intros ->. reflexivity. Qed.

Lemma bind_Raise {W A B} (m : M W A) (k : A -> M W B) w e w' :
  m w = Raise e w' -> bind m k w = Raise e w'.
Proof. unfold bind. intros ->. reflexivity. Qed.

Lemma bind_OutOfFuel {W A B} (m : M W A) (k : A -> M W B) w :
  m w = OutOfFuel -> bind m k w = OutOfFuel.
Proof. unfold bind. intros ->. reflexivity. Qed.

Lemma bind_assoc {W A B C} (m : M W A) (k : A -> M W B) (k' : B -> M W C) w :
  bind (bind m k) k' w = bind m (fun a => bind (k a) k') w.
Proof. unfold bind. destruct (m w); reflexivity. Qed.

Lemma call_not_OutOfFuel {W A} (f : ext W A) w : call f w <> OutOfFuel.
Proof. unfold call. destruct (f w) as [[e|a] w']; discriminate. Qed.

Lemma pure_not_OutOfFuel {W A} (r : exn + A) (w : W) : pure r w <> OutOfFuel.
Proof. destruct r; discriminate. Qed.

(** A handler that returns turns every exception into a value. *)
Lemma try_except_ret_never_raises {W A} (m : M W A) (h : exn -> A) w e w' :
  try_except m (fun e => ret (h e)) w <> Raise e w'.
Proof. unfold try_except. destruct (m w); discriminate. Qed.

Lemma try_except_Ret {W A} (m : M W A) (h : exn -> M W A) w a w' :
  m w = Ret a w' -> try_except m h w = Ret a w'.
Proof. unfold try_except. intros ->. reflexivity. Qed.

Lemma try_except_Raise {W A} (m : M W A) (h : exn -> M W A) w e w' :
  m w = Raise e w' -> try_except m h w = h e w'.
Proof. unfold try_except. intros ->. reflexivity. Qed.

Lemma try_except_OutOfFuel {W A} (m : M W A) (h : exn -> M W A) w :
  m w = OutOfFuel -> try_except m h w = OutOfFuel.
Proof. unfold try_except. intros ->. reflexivity. Qed.

(** ** The tool loop *)
Section ToolLoop.
Variable E : Env.
Abbreviation W := (World E).
Implicit Types (self : SwarmAgent.t) (messages : list value) (w : W).

Lemma invoke_not_OutOfFuel function_name function_args w :
  SwarmAgent.invoke E function_name function_args w <> OutOfFuel.
Proof.
  unfold SwarmAgent.invoke.
  destruct function_args; try discriminate. apply call_not_OutOfFuel.
Qed.

Lemma round_not_OutOfFuel self messages c w :
  SwarmAgent.round E self messages c w <> OutOfFuel.
Proof.
  unfold SwarmAgent.round, SwarmAgent.requested_call, bind.
  destruct (function_call (message c)) as [fc|]; simpl; [|discriminate].
  destruct (json_loads E (fc_arguments fc)) as [e|args]; simpl; [discriminate|].
  pose proof (invoke_not_OutOfFuel (fc_name fc) args w) as Hi.
  destruct (SwarmAgent.invoke E (fc_name fc) args w) as [r w1|e w1|];
    [|discriminate|congruence].
  pose proof (call_not_OutOfFuel
    (chat_completions_create E
       (messages ++ SwarmAgent.tool_messages E fc r)%list
       (SwarmAgent.functions_arg self)) w1) as Hc.
  destruct (call _ w1); [discriminate|discriminate|congruence].
Qed.

(** Unfolding the loop once. *)
Lemma tool_loop_stop fuel self messages response w :
  continues response = false ->
  choices response <> [] ->
  SwarmAgent.tool_loop E (S fuel) self messages response w = Ret response w.
Proof.
  unfold continues. intros Hc Hne. simpl. unfold bind.
  destruct (choices response) as [|c cs]; [congruence|]. simpl.
  rewrite Hc. reflexivity.
Qed.

Lemma tool_loop_step fuel self messages response c cs w :
  choices response = c :: cs ->
  finish_reason c = "function_call" ->
  SwarmAgent.tool_loop E (S fuel) self messages response w =
  bind (SwarmAgent.round E self messages c)
       (fun mr => SwarmAgent.tool_loop E fuel self (fst mr) (snd mr)) w.
Proof.
  intros Hc Hf. simpl. unfold bind at 1. rewrite Hc. simpl. rewrite Hf. reflexivity.
Qed.

(** More fuel does not change a run that came to an end. *)
Lemma tool_loop_mono fuel self messages response w :
  SwarmAgent.tool_loop E fuel self messages response w <> OutOfFuel ->
  SwarmAgent.tool_loop E (S fuel) self messages response w =
  SwarmAgent.tool_loop E fuel self messages response w.
Proof.
  revert messages response w.
  induction fuel as [|fuel IH]; intros messages response w H.
  - simpl in H. congruence.
  - remember (S fuel) as n eqn:Hn.
    change (SwarmAgent.tool_loop E (S n) self messages response w)
      with (bind (index0 (choices response))
              (fun c => if String.eqb (finish_reason c) "function_call"
                        then bind (SwarmAgent.round E self messages c)
                               (fun mr => SwarmAgent.tool_loop E n self (fst mr) (snd mr))
                        else ret response) w).
    subst n.
    change (SwarmAgent.tool_loop E (S fuel) self messages response w)
      with (bind (index0 (choices response))
              (fun c => if String.eqb (finish_reason c) "function_call"
                        then bind (SwarmAgent.round E self messages c)
                               (fun mr => SwarmAgent.tool_loop E fuel self (fst mr) (snd mr))
                        else ret response) w) in H |- *.
    unfold bind at 1 3. unfold bind at 1 in H.
    destruct (index0 (choices response) w) as [c w1|e w1|]; try reflexivity.
    destruct (String.eqb (finish_reason c) "function_call"); [|reflexivity].
    unfold bind in H |- *.
    destruct (SwarmAgent.round E self messages c w1) as [mr w2|e w2|]; try reflexivity.
    apply IH. exact H.
Qed.

Lemma tool_loop_mono_le fuel fuel' self messages response w :
  fuel <= fuel' ->
  SwarmAgent.tool_loop E fuel self messages response w <> OutOfFuel ->
  SwarmAgent.tool_loop E fuel' self messages response w =
  SwarmAgent.tool_loop E fuel self messages response w.
Proof.
  induction 1 as [|m Hle IH]; intros H; [reflexivity|].
  rewrite tool_loop_mono; [auto|]. rewrite IH; auto.
Qed.

Lemma ends_within_le {A} (budget : W -> nat) b b' (r : res W A) :
  b <= b' -> ends_within E budget b r -> ends_within E budget b' r.
Proof. destruct r; simpl; lia. Qed.

Lemma ends_within_bind {A B} (budget : W -> nat) b (m : M W A) (k : A -> M W B) w :
  ends_within E budget b (m w) ->
  (forall a w', m w = Ret a w' -> ends_within E budget b (k a w')) ->
  ends_within E budget b (bind m k w).
Proof.
  unfold bind. intros Hm Hk. destruct (m w) as [a w'|e w'|]; auto.
Qed.

Section Bounded.
Variable budget : W -> nat.
Hypothesis Hb : bounded E budget.

Lemma call_chat_ends msgs fns w :
  ends_within E budget (budget w) (call (chat_completions_create E msgs fns) w).
Proof.
  unfold call. pose proof (chat_budget E _ Hb msgs fns w) as H.
  destruct (chat_completions_create E msgs fns w) as [[e|r] w']; exact H.
Qed.

Lemma invoke_ends function_name function_args w :
  ends_within E budget (budget w) (SwarmAgent.invoke E function_name function_args w).
Proof.
  unfold SwarmAgent.invoke.
  destruct function_args; simpl; try lia.
  unfold SwarmAgent.tool_implementations.
  destruct (decide (function_name = "search_news")) as [->|Hn1].
  { rewrite lookup_insert_eq. simpl. unfold call.
    pose proof (search_budget E _ Hb d w) as H.
    destruct (search_news E d w) as [[e|r] w']; exact H. }
  rewrite lookup_insert_ne by congruence.
  destruct (decide (function_name = "scrape_news_article")) as [->|Hn2].
  { rewrite lookup_insert_eq. simpl. unfold call.
    pose proof (scrape_budget E _ Hb d w) as H.
    destruct (scrape_news_article E d w) as [[e|r] w']; exact H. }
  rewrite lookup_insert_ne by congruence. rewrite lookup_empty. simpl.
  unfold call, SwarmAgent.not_found. simpl. lia.
Qed.

(** A round ends, and when its reply asks for another tool the budget went
    down. *)
Lemma round_ends self messages c w :
  match SwarmAgent.round E self messages c w with
  | Ret mr w' =>
      budget w' <= budget w /\ (continues (snd mr) = true -> budget w' < budget w)
  | Raise _ w' => budget w' <= budget w
  | OutOfFuel => False
  end.
Proof.
  unfold SwarmAgent.round, SwarmAgent.requested_call, bind.
  destruct (function_call (message c)) as [fc|]; simpl; [|lia].
  destruct (json_loads E (fc_arguments fc)) as [e|args]; simpl; [lia|].
  pose proof (invoke_ends (fc_name fc) args w) as Hi.
  destruct (SwarmAgent.invoke E (fc_name fc) args w) as [r w1|e w1|]; simpl in Hi;
    [|lia|contradiction].
  unfold call.
  pose proof (chat_budget E _ Hb (messages ++ SwarmAgent.tool_messages E fc r)%list
                (SwarmAgent.functions_arg self) w1) as Hc.
  pose proof (chat_budget_request E _ Hb (messages ++ SwarmAgent.tool_messages E fc r)%list
                (SwarmAgent.functions_arg self) w1) as Hr.
  destruct (chat_completions_create E _ _ w1) as [[e|r'] w2]; simpl in *; [lia|].
  split; [lia|]. intros Hcont. specialize (Hr r' w2 eq_refl Hcont). lia.
Qed.

Lemma tool_loop_ends fuel : forall b self messages response w,
  budget w <= b ->
  (continues response = true -> budget w < b) ->
  b < fuel ->
  ends_within E budget (budget w)
    (SwarmAgent.tool_loop E fuel self messages response w).
Proof.
  induction fuel as [|fuel IH]; intros b self messages response w Hle Hlt Hf; [lia|].
  simpl. unfold bind at 1. unfold continues in Hlt.
  destruct (choices response) as [|c cs]; simpl in *; [lia|].
  destruct (String.eqb (finish_reason c) "function_call"); simpl; [|lia].
  specialize (Hlt eq_refl).
  apply ends_within_bind.
  - pose proof (round_ends self messages c w) as Hr.
    destruct (SwarmAgent.round E self messages c w); simpl; tauto.
  - intros [messages' response'] w' Heq. simpl.
    pose proof (round_ends self messages c w) as Hr. rewrite Heq in Hr.
    simpl in Hr. destruct Hr as [Hr1 Hr2].
    apply ends_within_le with (b := budget w'); [lia|].
    apply (IH (b - 1)); lia || (intros Hc; specialize (Hr2 Hc); lia).
Qed.

Lemma run_body_ends fuel self prompt w :
  budget w < fuel ->
  ends_within E budget (budget w) (SwarmAgent.run_body E fuel self prompt w).
Proof.
  intros Hf. unfold SwarmAgent.run_body.
  apply ends_within_bind; [apply call_chat_ends|].
  intros response w1 Hcall.
  assert (budget w1 <= budget w /\ (continues response = true -> budget w1 < budget w))
    as [H1 H2].
  { unfold call in Hcall.
    pose proof (chat_budget E _ Hb (SwarmAgent.initial_messages self prompt)
                  (SwarmAgent.functions_arg self) w) as Hc.
    pose proof (chat_budget_request E _ Hb (SwarmAgent.initial_messages self prompt)
                  (SwarmAgent.functions_arg self) w) as Hr.
    destruct (chat_completions_create E _ _ w) as [[e|r] w2]; [discriminate|].
    inversion Hcall; subst. simpl in Hc. split; [lia|]. intros Hcont.
    exact (Hr _ _ eq_refl Hcont). }
  apply ends_within_bind.
  - apply ends_within_le with (b := budget w1); [lia|].
    apply (tool_loop_ends fuel (budget w)); auto.
  - intros response' w2 Hloop.
    pose proof (tool_loop_ends fuel (budget w) self
                  (SwarmAgent.initial_messages self prompt) response w1 H1 H2 Hf) as He.
    rewrite Hloop in He. simpl in He.
    unfold bind, index0. destruct (choices response'); simpl; lia.
Qed.

Lemma run_ends fuel self prompt w :
  budget w < fuel ->
  exists v w', SwarmAgent.run E fuel self prompt w = Ret v w' /\ budget w' <= budget w.
Proof.
  intros Hf. pose proof (run_body_ends fuel self prompt w Hf) as He.
  unfold SwarmAgent.run, try_except.
  destruct (SwarmAgent.run_body E fuel self prompt w) as [v w'|e w'|]; simpl in He.
  - eauto.
  - eexists _, _. split; [reflexivity|exact He].
  - contradiction.
Qed.

End Bounded.

(** ** What [SwarmAgent.run] gives back *)

Lemma run_never_raises fuel self prompt w e w' :
  SwarmAgent.run E fuel self prompt w <> Raise e w'.
Proof. apply try_except_ret_never_raises. Qed.

Lemma run_agent_result fuel self prompt w v w' :
  SwarmAgent.run E fuel self prompt w = Ret v w' -> agent_result v.
Proof.
  unfold SwarmAgent.run, try_except, SwarmAgent.run_body, bind, agent_result.
  destruct (call _ w) as [r w1|e w1|]; [|intros [= <- <-]; eauto|discriminate].
  destruct (SwarmAgent.tool_loop E fuel self _ r w1) as [r' w2|e w2|];
    [|intros [= <- <-]; eauto|discriminate].
  unfold index0. destruct (choices r') as [|c cs]; simpl.
  - intros [= <- <-]; eauto.
  - intros [= <- <-]; eauto.
Qed.

Lemma run_mono fuel fuel' self prompt w :
  fuel <= fuel' ->
  SwarmAgent.run E fuel self prompt w <> OutOfFuel ->
  SwarmAgent.run E fuel' self prompt w = SwarmAgent.run E fuel self prompt w.
Proof.
  intros Hle. unfold SwarmAgent.run, try_except, SwarmAgent.run_body, bind.
  destruct (call _ w) as [r w1|e w1|]; try reflexivity.
  intros H.
  rewrite (tool_loop_mono_le fuel fuel'); auto.
  intros Ho. rewrite Ho in H. congruence.
Qed.

End ToolLoop.

(** ** The dispatch loop *)
Section Dispatch.
Variable E : Env.
Implicit Types (self : OrchestratorAgent.t) (tasks results : list value) (w : World E).

Lemma dispatch_cons_resolved fuel self task tasks results w k agent sub_task :
  resolved_step self task = Some (k, agent, sub_task) ->
  OrchestratorAgent.dispatch E fuel self (task :: tasks) results w =
  bind (SwarmAgent.run E fuel agent sub_task)
       (fun result =>
          OrchestratorAgent.dispatch E fuel self tasks
            (results ++ [OrchestratorAgent.sub_agent_result (VStr k) sub_task result])%list) w.
Proof.
  unfold resolved_step. destruct task as [| | | | |d]; try discriminate.
  simpl. unfold bind at 1 2 3. simpl.
  destruct (dict_get d "agent_name") as [| | |s| |] eqn:Hn; try discriminate.
  simpl.
  destruct (OrchestratorAgent.agent_lookup _ s) as [a|]; [|discriminate].
  intros [= <- <- <-]. reflexivity.
Qed.

Lemma dispatch_cons_skipped fuel self task tasks results w :
  plan_step task = true ->
  resolved_step self task = None ->
  OrchestratorAgent.dispatch E fuel self (task :: tasks) results w =
  OrchestratorAgent.dispatch E fuel self tasks results w.
Proof.
  unfold plan_step, resolved_step. destruct task as [| | | | |d]; try discriminate.
  simpl. unfold bind at 1 2 3. simpl.
  destruct (dict_get d "agent_name") as [| | |s| |] eqn:Hn; try discriminate;
    simpl; try reflexivity.
  destruct (OrchestratorAgent.agent_lookup _ s) as [a|]; [discriminate|reflexivity].
Qed.

Lemma dispatch_cons_raises self task :
  plan_step task = false ->
  exists e, forall fuel tasks results w,
    OrchestratorAgent.dispatch E fuel self (task :: tasks) results w = Raise e w.
Proof.
  unfold plan_step. destruct task as [| | | | |d]; simpl;
    try (intros _; eexists; reflexivity).
  unfold bind. simpl.
  destruct (dict_get d "agent_name"); try discriminate;
    intros _; eexists; reflexivity.
Qed.

Lemma plan_step_resolved self task step :
  resolved_step self task = Some step -> plan_step task = true.
Proof.
  unfold resolved_step, plan_step. destruct task; try discriminate.
  destruct (dict_get d "agent_name"); try discriminate. reflexivity.
Qed.

(** The loop over a concatenation is the loop over the first part, then
    over the second, on the results so far. *)
Lemma dispatch_app fuel self tasks1 tasks2 results w :
  OrchestratorAgent.dispatch E fuel self (tasks1 ++ tasks2) results w =
  bind (OrchestratorAgent.dispatch E fuel self tasks1 results)
       (fun results' => OrchestratorAgent.dispatch E fuel self tasks2 results') w.
Proof.
  revert results w. induction tasks1 as [|task tasks1 IH]; intros results w.
  - reflexivity.
  - destruct (plan_step task) eqn:Hp.
    + destruct (resolved_step self task) as [[[k agent] sub_task]|] eqn:Hr.
      * simpl app. rewrite (dispatch_cons_resolved _ _ _ _ _ _ _ _ _ Hr).
        unfold bind. rewrite (dispatch_cons_resolved _ _ _ _ _ _ _ _ _ Hr).
        unfold bind.
        destruct (SwarmAgent.run E fuel agent sub_task w); try reflexivity.
        rewrite IH. reflexivity.
      * simpl app. rewrite dispatch_cons_skipped by assumption.
        unfold bind. rewrite dispatch_cons_skipped by assumption.
        rewrite IH. reflexivity.
    + simpl app.
      destruct (dispatch_cons_raises self task Hp) as [e He].
      rewrite He. unfold bind. rewrite He. reflexivity.
Qed.

(** Dispatching a plan of well-formed steps is running its resolved calls. *)
Lemma dispatch_invoke_all fuel self tasks : forall results w,
  Forall (fun task => plan_step task = true) tasks ->
  OrchestratorAgent.dispatch E fuel self tasks results w =
  invoke_all E fuel (resolved_steps self tasks) results w.
Proof.
  induction tasks as [|task tasks IH]; intros results w Hall; [reflexivity|].
  inversion Hall as [|? ? Hp Hall']; subst.
  unfold resolved_steps. simpl omap.
  destruct (resolved_step self task) as [[[k agent] sub_task]|] eqn:Hr.
  - rewrite (dispatch_cons_resolved _ _ _ _ _ _ _ _ _ Hr). simpl.
    unfold bind. destruct (SwarmAgent.run E fuel agent sub_task w); try reflexivity.
    apply IH. assumption.
  - rewrite dispatch_cons_skipped by assumption. apply IH. assumption.
Qed.

(** Running the calls never raises, and what it returns is the results so
    far followed by one entry per call, in order. *)
Lemma invoke_all_never_raises fuel steps : forall results w e w',
  invoke_all E fuel steps results w <> Raise e w'.
Proof.
  induction steps as [|step steps IH]; intros results w e w'; [discriminate|].
  simpl. unfold bind.
  pose proof (run_never_raises E fuel step.1.2 step.2 w) as Hn.
  destruct (SwarmAgent.run E fuel step.1.2 step.2 w) as [r w1|e1 w1|];
    [apply IH|exfalso; eapply Hn; reflexivity|discriminate].
Qed.

Lemma invoke_all_entries fuel steps : forall results w rs w',
  invoke_all E fuel steps results w = Ret rs w' ->
  exists outs, length outs = length steps /\
               Forall (agent_result) outs /\
               rs = (results ++ zip_with entry_of steps outs)%list.
Proof.
  induction steps as [|step steps IH]; intros results w rs w'.
  - intros [= <- <-]. exists []. rewrite app_nil_r. auto.
  - simpl. unfold bind.
    destruct (SwarmAgent.run E fuel step.1.2 step.2 w) as [r w1|e1 w1|] eqn:Hrun;
      try discriminate.
    intros H. apply IH in H as (outs & Hlen & Hall & ->).
    exists (r :: outs). simpl. rewrite <- app_assoc. simpl.
    repeat split; auto.
    constructor; [|assumption]. eapply run_agent_result; eassumption.
Qed.

(** A loop that returned went through well-formed steps only. *)
Lemma dispatch_Ret_plan_steps fuel self tasks : forall results w rs w',
  OrchestratorAgent.dispatch E fuel self tasks results w = Ret rs w' ->
  Forall (fun task => plan_step task = true) tasks.
Proof.
  induction tasks as [|task tasks IH]; intros results w rs w' H; [constructor|].
  destruct (plan_step task) eqn:Hp.
  - constructor; [assumption|].
    destruct (resolved_step self task) as [[[k agent] sub_task]|] eqn:Hr.
    + rewrite (dispatch_cons_resolved _ _ _ _ _ _ _ _ _ Hr) in H. unfold bind in H.
      destruct (SwarmAgent.run E fuel agent sub_task w); try discriminate.
      eapply IH; eassumption.
    + rewrite dispatch_cons_skipped in H by assumption. eapply IH; eassumption.
  - destruct (dispatch_cons_raises self task Hp) as [e He].
    rewrite He in H. discriminate.
Qed.

End Dispatch.

(** ** What [OrchestratorAgent.run] gives back *)
Section Orchestrator.
Variable E : Env.
Implicit Types (self : OrchestratorAgent.t) (tasks results : list value) (w : World E).

Lemma orchestrator_run_never_raises fuel self prompt w e w' :
  OrchestratorAgent.run E fuel self prompt w <> Raise e w'.
Proof. apply try_except_ret_never_raises. Qed.

Lemma synthesize_Ret results w v w' :
  OrchestratorAgent.synthesize E results w = Ret v w' ->
  exists c, v = OrchestratorAgent.report c results.
Proof.
  unfold OrchestratorAgent.synthesize, bind.
  destruct (call _ w) as [r w1|e w1|]; try discriminate.
  unfold index0. destruct (choices r) as [|c cs]; simpl; [discriminate|].
  intros [= <- <-]. eauto.
Qed.

Lemma synthesize_not_OutOfFuel results w :
  OrchestratorAgent.synthesize E results w <> OutOfFuel.
Proof.
  unfold OrchestratorAgent.synthesize, bind.
  pose proof (call_not_OutOfFuel
    (chat_completions_create E (OrchestratorAgent.synthesis_messages E results) None) w) as H.
  destruct (call _ w) as [r w1|e w1|]; [|discriminate|congruence].
  unfold index0. destruct (choices r); discriminate.
Qed.

Lemma plan_not_OutOfFuel self prompt w :
  OrchestratorAgent.plan E self prompt w <> OutOfFuel.
Proof.
  unfold OrchestratorAgent.plan, bind.
  pose proof (call_not_OutOfFuel
    (chat_completions_create E (OrchestratorAgent.planning_messages self prompt) None) w) as H.
  destruct (call _ w) as [r w1|e w1|]; [|discriminate|congruence].
  unfold index0. destruct (choices r) as [|c cs]; simpl; [discriminate|].
  destruct (OrchestratorAgent.loads_content E (content (message c))); discriminate.
Qed.

(** A run that returned a report went through its three phases. *)
Lemma orchestrator_run_report fuel self prompt w c results w' :
  OrchestratorAgent.run E fuel self prompt w
    = Ret (OrchestratorAgent.report c results) w' ->
  exists tasks w1 w2,
    OrchestratorAgent.plan E self prompt w = Ret tasks w1 /\
    OrchestratorAgent.dispatch E fuel self tasks [] w1 = Ret results w2 /\
    OrchestratorAgent.synthesize E results w2
      = Ret (OrchestratorAgent.report c results) w'.
Proof.
  unfold OrchestratorAgent.run, try_except, OrchestratorAgent.run_body, bind.
  destruct (OrchestratorAgent.plan E self prompt w) as [tasks w1|e w1|] eqn:Hp;
    [|discriminate|discriminate].
  destruct (OrchestratorAgent.dispatch E fuel self tasks [] w1) as [rs w2|e w2|] eqn:Hd;
    [|discriminate|discriminate].
  destruct (OrchestratorAgent.synthesize E rs w2) as [v w3|e w3|] eqn:Hs;
    [|discriminate|discriminate].
  intros H. injection H as Hv Hw. subst v w3.
  destruct (synthesize_Ret _ _ _ _ Hs) as [c' Hc'].
  assert (rs = results) as -> by (unfold OrchestratorAgent.report in Hc'; congruence).
  exists tasks, w1, w2. auto.
Qed.

Lemma orchestrator_run_result fuel self prompt w v w' :
  OrchestratorAgent.run E fuel self prompt w = Ret v w' -> orchestrator_result v.
Proof.
  unfold OrchestratorAgent.run, try_except, OrchestratorAgent.run_body, bind,
    orchestrator_result.
  destruct (OrchestratorAgent.plan E self prompt w) as [tasks w1|e w1|];
    [|intros [= <- <-]; eauto|discriminate].
  destruct (OrchestratorAgent.dispatch E fuel self tasks [] w1) as [rs w2|e w2|];
    [|intros [= <- <-]; eauto|discriminate].
  destruct (OrchestratorAgent.synthesize E rs w2) as [v' w3|e w3|] eqn:Hs;
    [|intros [= <- <-]; eauto|discriminate].
  intros [= <- <-]. destruct (synthesize_Ret _ _ _ _ Hs) as [c ->]. eauto.
Qed.

Lemma dispatch_mono fuel fuel' self tasks : forall results w,
  fuel <= fuel' ->
  OrchestratorAgent.dispatch E fuel self tasks results w <> OutOfFuel ->
  OrchestratorAgent.dispatch E fuel' self tasks results w =
  OrchestratorAgent.dispatch E fuel self tasks results w.
Proof.
  induction tasks as [|task tasks IH]; intros results w Hle H; [reflexivity|].
  destruct (plan_step task) eqn:Hp.
  - destruct (resolved_step self task) as [[[k agent] sub_task]|] eqn:Hr.
    + rewrite (dispatch_cons_resolved E fuel _ _ _ _ _ _ _ _ Hr) in H.
      rewrite (dispatch_cons_resolved E fuel _ _ _ _ _ _ _ _ Hr).
      rewrite (dispatch_cons_resolved E fuel' _ _ _ _ _ _ _ _ Hr).
      unfold bind in H |- *.
      destruct (SwarmAgent.run E fuel agent sub_task w) as [r w1|e w1|] eqn:Hrun;
        [| |congruence].
      * rewrite (run_mono E fuel fuel') by (auto; congruence).
        rewrite Hrun. apply IH; assumption.
      * rewrite (run_mono E fuel fuel') by (auto; congruence).
        rewrite Hrun. reflexivity.
    + rewrite !dispatch_cons_skipped in * by assumption. apply IH; assumption.
  - destruct (dispatch_cons_raises E self task Hp) as [e He].
    rewrite !He. reflexivity.
Qed.

Lemma orchestrator_run_mono fuel fuel' self prompt w :
  fuel <= fuel' ->
  OrchestratorAgent.run E fuel self prompt w <> OutOfFuel ->
  OrchestratorAgent.run E fuel' self prompt w = OrchestratorAgent.run E fuel self prompt w.
Proof.
  intros Hle. unfold OrchestratorAgent.run, try_except, OrchestratorAgent.run_body, bind.
  destruct (OrchestratorAgent.plan E self prompt w) as [tasks w1|e w1|]; try reflexivity.
  intros H.
  rewrite (dispatch_mono fuel fuel'); auto.
  intros Ho. rewrite Ho in H. congruence.
Qed.

(** The dispatch loop runs out of fuel only if the run of a registered
    sub-agent does. *)
Lemma dispatch_OutOfFuel fuel self tasks : forall results w,
  OrchestratorAgent.dispatch E fuel self tasks results w = OutOfFuel ->
  exists k agent sub_task w0,
    OrchestratorAgent.agent_lookup (OrchestratorAgent.sub_agents self) k = Some agent /\
    SwarmAgent.run E fuel agent sub_task w0 = OutOfFuel.
Proof.
  induction tasks as [|task tasks IH]; intros results w H; [discriminate|].
  destruct (plan_step task) eqn:Hp.
  - destruct (resolved_step self task) as [[[k agent] sub_task]|] eqn:Hr.
    + rewrite (dispatch_cons_resolved E fuel _ _ _ _ _ _ _ _ Hr) in H.
      unfold bind in H.
      destruct (SwarmAgent.run E fuel agent sub_task w) as [r w1|e w1|] eqn:Hrun;
        [eauto|discriminate|].
      exists k, agent, sub_task, w. split; [|exact Hrun].
      unfold resolved_step in Hr. destruct task; try discriminate.
      destruct (dict_get d "agent_name"); try discriminate.
      destruct (OrchestratorAgent.agent_lookup _ s) eqn:Hl; [|discriminate].
      congruence.
    + rewrite dispatch_cons_skipped in H by assumption. eauto.
  - destruct (dispatch_cons_raises E self task Hp) as [e He].
    rewrite He in H. discriminate.
Qed.

Lemma orchestrator_run_OutOfFuel fuel self prompt w :
  OrchestratorAgent.run E fuel self prompt w = OutOfFuel ->
  exists k agent sub_task w0,
    OrchestratorAgent.agent_lookup (OrchestratorAgent.sub_agents self) k = Some agent /\
    SwarmAgent.run E fuel agent sub_task w0 = OutOfFuel.
Proof.
  unfold OrchestratorAgent.run, try_except, OrchestratorAgent.run_body, bind.
  pose proof (plan_not_OutOfFuel self prompt w) as Hplan.
  destruct (OrchestratorAgent.plan E self prompt w) as [tasks w1|e w1|];
    [|discriminate|congruence].
  destruct (OrchestratorAgent.dispatch E fuel self tasks [] w1) as [rs w2|e w2|] eqn:Hd.
  - pose proof (synthesize_not_OutOfFuel rs w2) as Hs.
    destruct (OrchestratorAgent.synthesize E rs w2); [discriminate|discriminate|congruence].
  - discriminate.
  - intros _. eapply dispatch_OutOfFuel. exact Hd.
Qed.

Section Bounded.
Variable budget : World E -> nat.
Hypothesis Hb : bounded E budget.

Lemma plan_ends self prompt w :
  ends_within E budget (budget w) (OrchestratorAgent.plan E self prompt w).
Proof.
  unfold OrchestratorAgent.plan.
  apply ends_within_bind; [apply call_chat_ends; assumption|].
  intros r w1 Hcall.
  pose proof (call_chat_ends E budget Hb
                (OrchestratorAgent.planning_messages self prompt) None w) as H.
  rewrite Hcall in H. simpl in H.
  unfold bind, index0. destruct (choices r) as [|c cs]; simpl; [lia|].
  destruct (OrchestratorAgent.loads_content E (content (message c))); simpl; lia.
Qed.

Lemma synthesize_ends results w :
  ends_within E budget (budget w) (OrchestratorAgent.synthesize E results w).
Proof.
  unfold OrchestratorAgent.synthesize.
  apply ends_within_bind; [apply call_chat_ends; assumption|].
  intros r w1 Hcall.
  pose proof (call_chat_ends E budget Hb
                (OrchestratorAgent.synthesis_messages E results) None w) as H.
  rewrite Hcall in H. simpl in H.
  unfold bind, index0. destruct (choices r) as [|c cs]; simpl; lia.
Qed.

Lemma dispatch_ends fuel self tasks : forall results w,
  budget w < fuel ->
  ends_within E budget (budget w) (OrchestratorAgent.dispatch E fuel self tasks results w).
Proof.
  induction tasks as [|task tasks IH]; intros results w Hf; [simpl; lia|].
  destruct (plan_step task) eqn:Hp.
  - destruct (resolved_step self task) as [[[k agent] sub_task]|] eqn:Hr.
    + rewrite (dispatch_cons_resolved _ _ _ _ _ _ _ _ _ _ Hr). unfold bind.
      destruct (run_ends E budget Hb fuel agent sub_task w Hf) as (v & w1 & -> & Hle).
      eapply ends_within_le; [exact Hle|]. apply IH. lia.
    + rewrite dispatch_cons_skipped by assumption. apply IH. assumption.
  - destruct (dispatch_cons_raises E self task Hp) as [e He].
    rewrite He. simpl. lia.
Qed.

Lemma orchestrator_run_ends fuel self prompt w :
  budget w < fuel ->
  exists v w', OrchestratorAgent.run E fuel self prompt w = Ret v w'
               /\ budget w' <= budget w.
Proof.
  intros Hf.
  assert (ends_within E budget (budget w)
            (OrchestratorAgent.run_body E fuel self prompt w)) as He.
  { unfold OrchestratorAgent.run_body.
    apply ends_within_bind; [apply plan_ends|].
    intros tasks w1 Hplan.
    pose proof (plan_ends self prompt w) as H1. rewrite Hplan in H1. simpl in H1.
    apply ends_within_bind.
    - eapply ends_within_le; [exact H1|]. apply dispatch_ends. lia.
    - intros rs w2 Hd.
      pose proof (dispatch_ends fuel self tasks [] w1 ltac:(lia)) as H2.
      rewrite Hd in H2. simpl in H2.
      eapply ends_within_le; [|apply synthesize_ends]. lia. }
  unfold OrchestratorAgent.run, try_except.
  destruct (OrchestratorAgent.run_body E fuel self prompt w) as [v w'|e w'|];
    simpl in He.
  - eauto.
  - eexists _, _. split; [reflexivity|exact He].
  - contradiction.
Qed.

End Bounded.
End Orchestrator.

(** ** Endless tool requests *)
Section Endless.
Variable E : Env.
Implicit Types (self : SwarmAgent.t) (messages : list value) (w : World E).

Lemma requests_tool_continues r : requests_tool E r -> continues r = true.
Proof.
  intros (c & cs & fc & kw & Hc & Hf & _). unfold continues. rewrite Hc, Hf.
  reflexivity.
Qed.

Lemma round_of_request self messages r w :
  always_requests E -> requests_tool E r ->
  exists c cs messages' r' w',
    choices r = c :: cs /\ finish_reason c = "function_call" /\
    SwarmAgent.round E self messages c w = Ret (messages', r') w' /\
    requests_tool E r' /\ length messages' = length messages + 2.
Proof.
  intros Hall (c & cs & fc & kw & Hc & Hf & Hfc & Hj & Hi).
  destruct (Hi w) as (v & w1 & Hv).
  destruct (Hall (messages ++ SwarmAgent.tool_messages E fc v)
              (SwarmAgent.functions_arg self) w1) as (r' & w2 & Hchat & Hr').
  exists c, cs, (messages ++ SwarmAgent.tool_messages E fc v), r', w2.
  repeat split; auto.
  - cbv beta iota delta [SwarmAgent.round SwarmAgent.requested_call bind].
    rewrite Hfc. cbv beta iota delta [ret]. rewrite Hj.
    cbv beta iota delta [pure ret]. rewrite Hv.
    cbv beta iota zeta delta [call]. rewrite Hchat. reflexivity.
  - rewrite length_app. reflexivity.
Qed.

Lemma tool_loop_forever fuel : forall self messages r w,
  always_requests E -> requests_tool E r ->
  SwarmAgent.tool_loop E fuel self messages r w = OutOfFuel.
Proof.
  induction fuel as [|fuel IH]; intros self messages r w Hall Hr; [reflexivity|].
  destruct (round_of_request self messages r w Hall Hr)
    as (c & cs & messages' & r' & w' & Hc & Hf & Hround & Hr' & _).
  rewrite (tool_loop_step E fuel self messages r c cs w Hc Hf).
  unfold bind. rewrite Hround. simpl. apply IH; assumption.
Qed.

Lemma run_forever fuel self prompt w :
  always_requests E -> SwarmAgent.run E fuel self prompt w = OutOfFuel.
Proof.
  intros Hall. unfold SwarmAgent.run, try_except, SwarmAgent.run_body, bind, call.
  destruct (Hall (SwarmAgent.initial_messages self prompt)
              (SwarmAgent.functions_arg self) w) as (r & w1 & -> & Hr).
  rewrite tool_loop_forever; auto.
Qed.

Lemma iterate_rounds_forever n : forall self messages r w,
  always_requests E -> requests_tool E r ->
  exists messages' r' w',
    iterate_rounds E n self messages r w = Ret (messages', r') w' /\
    requests_tool E r' /\ length messages' = length messages + 2 * n.
Proof.
  induction n as [|n IH]; intros self messages r w Hall Hr.
  - exists messages, r, w. repeat split; auto.
  - destruct (round_of_request self messages r w Hall Hr)
      as (c & cs & messages1 & r1 & w1 & Hc & Hf & Hround & Hr1 & Hlen).
    destruct (IH self messages1 r1 w1 Hall Hr1) as (messages' & r' & w' & Hit & Hr' & Hlen').
    exists messages', r', w'. repeat split; auto; [|lia].
    simpl. unfold bind. rewrite Hc. simpl. rewrite Hf. simpl.
    rewrite Hround. exact Hit.
Qed.

(** A round that returns has appended its two messages. *)
Lemma round_messages self messages c w mr w' :
  SwarmAgent.round E self messages c w = Ret mr w' ->
  length (fst mr) = length messages + 2.
Proof.
  unfold SwarmAgent.round, SwarmAgent.requested_call, bind.
  destruct (function_call (message c)) as [fc|]; simpl; [|discriminate].
  destruct (json_loads E (fc_arguments fc)) as [e|args]; simpl; [discriminate|].
  destruct (SwarmAgent.invoke E (fc_name fc) args w) as [r w1|e w1|]; try discriminate.
  destruct (call _ w1) as [r' w2|e w2|]; try discriminate.
  intros [= <- _]. simpl. rewrite length_app. reflexivity.
Qed.

(** The loop runs out of fuel only by going through as many rounds as it
    was given units of fuel. *)
Lemma tool_loop_OutOfFuel_rounds fuel : forall self messages r w,
  SwarmAgent.tool_loop E fuel self messages r w = OutOfFuel ->
  exists messages' r' w',
    iterate_rounds E fuel self messages r w = Ret (messages', r') w' /\
    length messages' = length messages + 2 * fuel.
Proof.
  induction fuel as [|fuel IH]; intros self messages r w H.
  - exists messages, r, w. split; [reflexivity|lia].
  - simpl in H |- *. unfold bind, index0 in H |- *.
    destruct (choices r) as [|c cs]; simpl in H |- *; [discriminate|].
    destruct (String.eqb (finish_reason c) "function_call"); [|discriminate].
    destruct (SwarmAgent.round E self messages c w) as [mr w1|e w1|] eqn:Hround;
      [|discriminate|].
    + destruct (IH _ _ _ _ H) as (messages' & r' & w' & Hit & Hlen).
      exists messages', r', w'. split; [exact Hit|].
      rewrite Hlen, (round_messages _ _ _ _ _ _ Hround). lia.
    + exfalso. eapply round_not_OutOfFuel. exact Hround.
Qed.

Lemma run_OutOfFuel_rounds fuel self prompt w :
  SwarmAgent.run E fuel self prompt w = OutOfFuel ->
  exists first w1 messages response w',
    chat_completions_create E (SwarmAgent.initial_messages self prompt)
      (SwarmAgent.functions_arg self) w = (inr first, w1) /\
    iterate_rounds E fuel self (SwarmAgent.initial_messages self prompt) first w1
      = Ret (messages, response) w' /\
    length messages = 2 + 2 * fuel.
Proof.
  unfold SwarmAgent.run, try_except, SwarmAgent.run_body, bind, call.
  destruct (chat_completions_create E _ _ w) as [[e|first] w1]; [discriminate|].
  destruct (SwarmAgent.tool_loop E fuel self _ first w1) as [r w2|e w2|] eqn:Hloop.
  - unfold index0. destruct (choices r); discriminate.
  - discriminate.
  - intros _. destruct (tool_loop_OutOfFuel_rounds _ _ _ _ _ Hloop)
      as (messages & response & w' & Hit & Hlen).
    exists first, w1, messages, response, w'. auto.
Qed.

End Endless.

(** ** The scripted environment *)

Lemma scripted_bounded default :
  match default with inr r => continues r = false | inl _ => True end ->
  bounded (scripted default) (fun w => length w).
Proof.
  intros Hd. constructor.
  - intros msgs fns w. destruct w; simpl; lia.
  - intros msgs fns w r w'. destruct w as [|x w0]; simpl.
    + intros [= -> <-] Hc. congruence.
    + intros [= -> <-] _. lia.
  - intros kw w. simpl. unfold offline_search_news.
    destruct (binds_search_news kw); simpl; lia.
  - intros kw w. simpl. unfold offline_scrape_news_article.
    destruct (binds_scrape_news_article kw); simpl; lia.
Qed.

Lemma endless_always_requests : always_requests endless.
Proof.
  intros msgs fns w. eexists _, _. split; [reflexivity|].
  eexists _, _, _, _. repeat split; try reflexivity.
  intros w0. eexists _, _. reflexivity.
Qed.

(** * The claims *)

(** C1 (as amended).  [SwarmAgent.run] and [OrchestratorAgent.run] never
    propagate an exception, whatever the prompt, the endpoint and the
    tools do, and an exception raised inside the body is turned into the
    value carrying the [error] field.  On any fuel a run either returns a
    dictionary (a result, a report or an error value) or is still inside a
    tool loop that has gone through as many tool-call rounds as there was
    fuel (for the orchestrator: the tool loop of a registered sub-agent).
    So the runs return as soon as the tool-call requests run out, and they
    do in every environment with a budget of requests, on any fuel above
    the budget. *)
Theorem runs_return_unless_requests_never_end
  (E : Env) (fuel : nat) (prompt : value) (w : World E) :
  (forall e w',
      (forall self, SwarmAgent.run E fuel self prompt w <> Raise e w') /\
      (forall self, OrchestratorAgent.run E fuel self prompt w <> Raise e w')) /\
  (forall e w1,
      (forall self,
          SwarmAgent.run_body E fuel self prompt w = Raise e w1 ->
          SwarmAgent.run E fuel self prompt w
            = Ret (VDict [("error", VStr ("Error in agent execution: " +:+ exn_str e))]) w1) /\
      (forall self,
          OrchestratorAgent.run_body E fuel self prompt w = Raise e w1 ->
          OrchestratorAgent.run E fuel self prompt w
            = Ret (VDict [("error", VStr ("Orchestration error: " +:+ exn_str e))]) w1)) /\
  (forall self : SwarmAgent.t,
      (exists v w', SwarmAgent.run E fuel self prompt w = Ret v w' /\ agent_result v) \/
      (exists first w1 messages response w',
          chat_completions_create E (SwarmAgent.initial_messages self prompt)
            (SwarmAgent.functions_arg self) w = (inr first, w1) /\
          iterate_rounds E fuel self (SwarmAgent.initial_messages self prompt) first w1
            = Ret (messages, response) w' /\
          length messages = 2 + 2 * fuel)) /\
  (forall self : OrchestratorAgent.t,
      (exists v w',
          OrchestratorAgent.run E fuel self prompt w = Ret v w' /\ orchestrator_result v) \/
      (exists k agent sub_task w0,
          OrchestratorAgent.agent_lookup (OrchestratorAgent.sub_agents self) k = Some agent /\
          SwarmAgent.run E fuel agent sub_task w0 = OutOfFuel)) /\
  (forall budget, bounded E budget -> budget w < fuel ->
      (forall self, exists v w',
          SwarmAgent.run E fuel self prompt w = Ret v w' /\ agent_result v) /\
      (forall self, exists v w',
          OrchestratorAgent.run E fuel self prompt w = Ret v w' /\
          orchestrator_result v)).
Proof.
  split; [|split; [|split; [|split]]].
  - intros e w'. split; intros self.
    + apply run_never_raises.
    + apply orchestrator_run_never_raises.
  - intros e w1. split; intros self H.
    + unfold SwarmAgent.run. rewrite (try_except_Raise _ _ _ _ _ H). reflexivity.
    + unfold OrchestratorAgent.run. rewrite (try_except_Raise _ _ _ _ _ H). reflexivity.
  - intros self.
    destruct (SwarmAgent.run E fuel self prompt w) as [v w'|e w'|] eqn:Hrun.
    + left. exists v, w'. split; [reflexivity|].
      eapply run_agent_result; eassumption.
    + exfalso. eapply run_never_raises. exact Hrun.
    + right. apply run_OutOfFuel_rounds. exact Hrun.
  - intros self.
    destruct (OrchestratorAgent.run E fuel self prompt w) as [v w'|e w'|] eqn:Hrun.
    + left. exists v, w'. split; [reflexivity|].
      eapply orchestrator_run_result; eassumption.
    + exfalso. eapply orchestrator_run_never_raises. exact Hrun.
    + right. eapply orchestrator_run_OutOfFuel. exact Hrun.
  - intros budget Hb Hf. split; intros self.
    + destruct (run_ends E budget Hb fuel self prompt w Hf) as (v & w' & Hrun & _).
      exists v, w'. split; [assumption|]. eapply run_agent_result; eassumption.
    + destruct (orchestrator_run_ends E budget Hb fuel self prompt w Hf)
        as (v & w' & Hrun & _).
      exists v, w'. split; [assumption|]. eapply orchestrator_run_result; eassumption.
Qed.

Lemma runs_return_unless_requests_never_end_witness :
  bounded closing (fun w => length w) /\
  (exists v w',
      SwarmAgent.run closing 2 news_searcher (VStr "Find news about AI")
        [inr (tool_request "search_news" (query_arguments "ai"))] = Ret v w'
      /\ agent_result v) /\
  (exists v w',
      OrchestratorAgent.run closing 2 orchestrator (VStr "Find news about AI")
        [inr (tool_request "search_news" (query_arguments "ai"))] = Ret v w'
      /\ orchestrator_result v).
Proof.
  assert (bounded closing (fun w => length w)) as Hb
    by (apply scripted_bounded; reflexivity).
  split; [exact Hb|].
  destruct (runs_return_unless_requests_never_end closing 2 (VStr "Find news about AI")
              [inr (tool_request "search_news" (query_arguments "ai"))])
    as (_ & _ & _ & _ & Hret).
  destruct (Hret (fun w => length w) Hb ltac:(simpl; lia)) as [Hagent Horch].
  split; [apply Hagent|apply Horch].
Defined.

(** C1 as stated fails: with an endpoint that asks for a tool on every
    round, [SwarmAgent.run] returns no value, on any fuel. *)
Lemma run_does_not_return_on_endless_requests :
  ~ exists fuel v w',
      SwarmAgent.run endless fuel news_searcher (VStr "Find news about AI") 0
        = Ret v w'.
Proof.
  intros (fuel & v & w' & H).
  rewrite (run_forever endless fuel _ _ _ endless_always_requests) in H.
  discriminate.
Qed.

(** C2 (as amended).  The loop has no round bound.  When every reply of
    the endpoint is a tool-call request that is resolved without an
    exception, the loop body is entered again after any number [n] of
    rounds, the conversation then holding the two initial messages and two
    more per round, and the run returns nothing on any fuel: neither a
    result nor an error value. *)
Theorem tool_loop_has_no_round_bound (E : Env) :
  always_requests E ->
  forall self prompt w,
    (forall fuel, SwarmAgent.run E fuel self prompt w = OutOfFuel) /\
    (forall n, exists first w1 messages response w',
        chat_completions_create E (SwarmAgent.initial_messages self prompt)
          (SwarmAgent.functions_arg self) w = (inr first, w1) /\
        iterate_rounds E n self (SwarmAgent.initial_messages self prompt) first w1
          = Ret (messages, response) w' /\
        continues response = true /\
        length messages = 2 + 2 * n).
Proof.
  intros Hall self prompt w. split.
  - intros fuel. apply run_forever. assumption.
  - intros n.
    destruct (Hall (SwarmAgent.initial_messages self prompt)
                (SwarmAgent.functions_arg self) w) as (first & w1 & Hchat & Hreq).
    destruct (iterate_rounds_forever E n self (SwarmAgent.initial_messages self prompt)
                first w1 Hall Hreq) as (messages & response & w' & Hit & Hreq' & Hlen).
    exists first, w1, messages, response, w'. repeat split; auto.
    apply (requests_tool_continues E). assumption.
Qed.

Lemma tool_loop_has_no_round_bound_witness :
  always_requests endless /\
  forall fuel,
    SwarmAgent.run endless fuel news_searcher (VStr "Find news about AI") 0 = OutOfFuel.
Proof.
  split.
  - exact endless_always_requests.
  - exact (proj1 (tool_loop_has_no_round_bound endless endless_always_requests
                    news_searcher (VStr "Find news about AI") 0)).
Defined.

(** C2 as stated fails: with an endpoint that asks for a tool on every
    round, no bound on the rounds makes the run return an error value. *)
Lemma endless_requests_give_no_round_limit_error :
  ~ exists bound msg w',
      SwarmAgent.run endless bound news_searcher (VStr "Find news about AI") 0
        = Ret (VDict [("error", VStr msg)]) w'.
Proof.
  intros (bound & msg & w' & H).
  rewrite (run_forever endless bound _ _ _ endless_always_requests) in H.
  discriminate.
Qed.

(** C3 (as amended).  When the plan was parsed and the dispatch loop has
    returned its results, the value of the run depends on the synthesis
    call: if the endpoint replies, it is the report holding the reply's
    content and the full list of results, in dispatch order; if the
    endpoint raises, or replies without a choice, it is the error value,
    which has no [analysis_results]. *)
Theorem report_keeps_results_when_synthesis_replies
  (E : Env) fuel self prompt (w : World E) tasks w1 results w2 :
  OrchestratorAgent.plan E self prompt w = Ret tasks w1 ->
  OrchestratorAgent.dispatch E fuel self tasks [] w1 = Ret results w2 ->
  (forall synthesis c cs w3,
      chat_completions_create E (OrchestratorAgent.synthesis_messages E results) None w2
        = (inr synthesis, w3) ->
      choices synthesis = c :: cs ->
      OrchestratorAgent.run E fuel self prompt w
        = Ret (VDict [("data",
                        VDict [("output", content_value (content (message c)));
                               ("analysis_results", VList results)])]) w3) /\
  (forall e w3,
      chat_completions_create E (OrchestratorAgent.synthesis_messages E results) None w2
        = (inl e, w3) ->
      OrchestratorAgent.run E fuel self prompt w
        = Ret (VDict [("error", VStr ("Orchestration error: " +:+ exn_str e))]) w3) /\
  (forall synthesis w3,
      chat_completions_create E (OrchestratorAgent.synthesis_messages E results) None w2
        = (inr synthesis, w3) ->
      choices synthesis = [] ->
      OrchestratorAgent.run E fuel self prompt w
        = Ret (VDict [("error", VStr ("Orchestration error: " +:+ exn_str IndexError))]) w3).
Proof.
  intros Hplan Hdispatch.
  unfold OrchestratorAgent.run, try_except, OrchestratorAgent.run_body, bind.
  rewrite Hplan, Hdispatch.
  unfold OrchestratorAgent.synthesize, bind, call.
  repeat split.
  - intros synthesis c cs w3 -> Hc. rewrite Hc. reflexivity.
  - intros e w3 ->. reflexivity.
  - intros synthesis w3 -> Hc. rewrite Hc. reflexivity.
Qed.

Lemma report_keeps_results_when_synthesis_replies_witness :
  OrchestratorAgent.plan closing orchestrator (VStr "AI news")
    [inr (final_reply one_step_plan); inr (final_reply "Three articles found.");
     inr (final_reply "Report.")]
  = Ret [VDict [("agent_name", VStr "news_searcher"); ("sub_task", VStr "find X")]]
        [inr (final_reply "Three articles found."); inr (final_reply "Report.")] /\
  OrchestratorAgent.dispatch closing 1 orchestrator
    [VDict [("agent_name", VStr "news_searcher"); ("sub_task", VStr "find X")]] []
    [inr (final_reply "Three articles found."); inr (final_reply "Report.")]
  = Ret [searcher_entry] [inr (final_reply "Report.")] /\
  OrchestratorAgent.run closing 1 orchestrator (VStr "AI news")
    [inr (final_reply one_step_plan); inr (final_reply "Three articles found.");
     inr (final_reply "Report.")]
  = Ret (VDict [("data", VDict [("output", VStr "Report.");
                                ("analysis_results", VList [searcher_entry])])]) [].
Proof.
  split; [reflexivity|]. split; [reflexivity|].
  refine (proj1 (report_keeps_results_when_synthesis_replies closing 1 orchestrator
                   (VStr "AI news")
                   [inr (final_reply one_step_plan);
                    inr (final_reply "Three articles found.");
                    inr (final_reply "Report.")]
                   [VDict [("agent_name", VStr "news_searcher");
                           ("sub_task", VStr "find X")]]
                   [inr (final_reply "Three articles found."); inr (final_reply "Report.")]
                   [searcher_entry] [inr (final_reply "Report.")] _ _)
                (final_reply "Report.") (final_choice "Report.") [] [] _ _); reflexivity.
Defined.

(** C3 as stated fails: the dispatch phase completes with one result, the
    synthesis call raises, and the run returns the error value; on no fuel
    does it return a report with the collected results. *)
Lemma synthesis_failure_drops_analysis_results :
  OrchestratorAgent.dispatch closing 1 orchestrator
    [VDict [("agent_name", VStr "news_searcher"); ("sub_task", VStr "find X")]] []
    [inr (final_reply "Three articles found.");
     inl (Raised "APIConnectionError" "Connection error.")]
  = Ret [searcher_entry] [inl (Raised "APIConnectionError" "Connection error.")] /\
  OrchestratorAgent.run closing 1 orchestrator (VStr "AI news") failing_synthesis
  = Ret (VDict [("error", VStr "Orchestration error: Connection error.")]) [] /\
  ~ exists fuel output w',
      OrchestratorAgent.run closing fuel orchestrator (VStr "AI news") failing_synthesis
      = Ret (VDict [("data", VDict [("output", output);
                                    ("analysis_results", VList [searcher_entry])])]) w'.
Proof.
  split; [reflexivity|]. split; [reflexivity|].
  intros (fuel & output & w' & H).
  destruct fuel as [|fuel]; [discriminate H|].
  rewrite (orchestrator_run_mono closing 1 (S fuel)) in H; [discriminate H|lia|discriminate].
Qed.

(** C4 (as amended).  When the model asks for a tool whose name is not a
    key of [tool_implementations], with arguments that parse to an object,
    the call is answered by the text [Error: Function <name> not found];
    the request and that text are appended to the conversation as the
    assistant and function messages, the model is asked again, and the
    loop goes on from its next reply.  Nothing is raised and the run does
    not end there. *)
Theorem unknown_tool_is_answered_in_conversation
  (E : Env) fuel self messages response c cs fc kwargs (w : World E) :
  choices response = c :: cs ->
  finish_reason c = "function_call" ->
  function_call (message c) = Some fc ->
  SwarmAgent.tool_implementations E !! fc_name fc = None ->
  json_loads E (fc_arguments fc) = inr (VDict kwargs) ->
  let answer := "Error: Function " +:+ fc_name fc +:+ " not found" in
  let messages' :=
    messages ++
    [ VDict [ ("role", VStr "assistant"); ("content", VNone);
              ("function_call",
                VDict [("name", VStr (fc_name fc));
                       ("arguments", VStr (fc_arguments fc))]) ];
      VDict [ ("role", VStr "function"); ("name", VStr (fc_name fc));
              ("content", VStr answer) ] ] in
  SwarmAgent.invoke E (fc_name fc) (VDict kwargs) w = Ret (VStr answer) w /\
  SwarmAgent.tool_loop E (S fuel) self messages response w =
  bind (call (chat_completions_create E messages' (SwarmAgent.functions_arg self)))
       (fun response' => SwarmAgent.tool_loop E fuel self messages' response') w.
Proof.
  intros Hc Hf Hfc Hnone Hj answer messages'.
  assert (SwarmAgent.invoke E (fc_name fc) (VDict kwargs) w = Ret (VStr answer) w) as Hi.
  { unfold SwarmAgent.invoke. rewrite Hnone. reflexivity. }
  split; [exact Hi|].
  rewrite (tool_loop_step E fuel self messages response c cs w Hc Hf).
  cbv beta iota delta [SwarmAgent.round SwarmAgent.requested_call bind].
  rewrite Hfc. cbv beta iota delta [ret]. rewrite Hj.
  cbv beta iota delta [pure ret]. rewrite Hi.
  cbv beta iota zeta.
  fold messages'.
  change (messages ++ SwarmAgent.tool_messages E fc (VStr answer)) with messages'.
  destruct (call (chat_completions_create E messages' (SwarmAgent.functions_arg self)) w);
    reflexivity.
Qed.

Lemma unknown_tool_is_answered_in_conversation_witness :
  SwarmAgent.tool_implementations closing !! "get_weather" = None /\
  Json.loads "{}" = inr (VDict []) /\
  SwarmAgent.invoke closing "get_weather" (VDict [])
    [inr (final_reply "I cannot look up the weather.")]
  = Ret (VStr "Error: Function get_weather not found")
        [inr (final_reply "I cannot look up the weather.")].
Proof.
  split; [reflexivity|]. split; [reflexivity|].
  exact (proj1 (unknown_tool_is_answered_in_conversation closing 0 news_searcher
                  (SwarmAgent.initial_messages news_searcher (VStr "Weather?"))
                  (tool_request "get_weather" "{}") _ [] _ []
                  [inr (final_reply "I cannot look up the weather.")]
                  eq_refl eq_refl eq_refl eq_refl eq_refl)).
Defined.

(** C4 as stated fails: after the request for an unknown tool the run goes
    on and returns the model's final message as its output; on no fuel
    does it return an error value. *)
Lemma unknown_tool_run_returns_data :
  SwarmAgent.run closing 2 news_searcher (VStr "Weather?") unknown_tool_script
  = Ret (VDict [("data", VDict [("output", VStr "I cannot look up the weather.")])]) [] /\
  ~ exists fuel msg w',
      SwarmAgent.run closing fuel news_searcher (VStr "Weather?") unknown_tool_script
      = Ret (VDict [("error", VStr msg)]) w'.
Proof.
  split; [reflexivity|].
  intros (fuel & msg & w' & H).
  destruct fuel as [|[|fuel]]; [discriminate H|discriminate H|].
  rewrite (run_mono closing 2 (S (S fuel))) in H; [discriminate H|lia|discriminate].
Qed.

(** C5.  When the planning reply's content parses as a single JSON object,
    the plan is the one-element list holding that object, and the run goes
    on with the dispatch loop over that list, then the synthesis. *)
Theorem single_object_plan_is_wrapped
  (E : Env) fuel self prompt (w : World E) planning_response c cs text d w1 :
  chat_completions_create E (OrchestratorAgent.planning_messages self prompt) None w
    = (inr planning_response, w1) ->
  choices planning_response = c :: cs ->
  content (message c) = Some text ->
  json_loads E text = inr (VDict d) ->
  OrchestratorAgent.plan E self prompt w = Ret [VDict d] w1 /\
  OrchestratorAgent.run E fuel self prompt w =
  try_except
    (let! results := OrchestratorAgent.dispatch E fuel self [VDict d] [] in
     OrchestratorAgent.synthesize E results)
    (fun e => ret (OrchestratorAgent.error_value e)) w1.
Proof.
  intros Hchat Hc Ht Hj.
  assert (OrchestratorAgent.plan E self prompt w = Ret [VDict d] w1) as Hplan.
  { unfold OrchestratorAgent.plan, bind, call. rewrite Hchat, Hc. simpl.
    rewrite Ht. simpl. rewrite Hj. reflexivity. }
  split; [exact Hplan|].
  unfold OrchestratorAgent.run, try_except, OrchestratorAgent.run_body.
  rewrite (bind_Ret _ _ _ _ _ Hplan). reflexivity.
Qed.

Lemma single_object_plan_is_wrapped_witness :
  Json.loads (step_text "news_searcher" "find X")
  = inr (VDict [("agent_name", VStr "news_searcher"); ("sub_task", VStr "find X")]) /\
  OrchestratorAgent.plan closing orchestrator (VStr "AI news")
    [inr (final_reply (step_text "news_searcher" "find X"))]
  = Ret [VDict [("agent_name", VStr "news_searcher"); ("sub_task", VStr "find X")]] [].
Proof.
  split; [reflexivity|].
  exact (proj1 (single_object_plan_is_wrapped closing 1 orchestrator (VStr "AI news")
                  [inr (final_reply (step_text "news_searcher" "find X"))]
                  (final_reply (step_text "news_searcher" "find X"))
                  (final_choice (step_text "news_searcher" "find X")) []
                  (step_text "news_searcher" "find X")
                  [("agent_name", VStr "news_searcher"); ("sub_task", VStr "find X")]
                  [] eq_refl eq_refl eq_refl eq_refl)).
Defined.

(** C6 (as amended).  For a plan of well-formed steps (JSON objects whose
    [agent_name], if any, is hashable), the dispatch loop is the run of
    the resolved calls (the steps whose [agent_name] is a key of
    [sub_agents], in plan order), each with its own [sub_task]: steps that
    do not resolve leave results and world untouched.  The loop raises
    nothing; what it returns is the results so far followed by one entry
    per resolved call, in order; and it returns unless the run of a
    registered sub-agent does not, so always when the endpoint's tool
    requests run out. *)
Theorem dispatch_runs_resolved_steps_in_order
  (E : Env) fuel self tasks results (w : World E) :
  Forall (fun task => plan_step task = true) tasks ->
  OrchestratorAgent.dispatch E fuel self tasks results w
    = invoke_all E fuel (resolved_steps self tasks) results w /\
  (forall e w', OrchestratorAgent.dispatch E fuel self tasks results w <> Raise e w') /\
  (forall rs w',
      OrchestratorAgent.dispatch E fuel self tasks results w = Ret rs w' ->
      exists outs,
        length outs = length (resolved_steps self tasks) /\
        Forall agent_result outs /\
        rs = results ++
             zip_with (fun step result =>
                         VDict [("agent", VStr step.1.1); ("task", step.2);
                                ("result", result)])
                      (resolved_steps self tasks) outs) /\
  (OrchestratorAgent.dispatch E fuel self tasks results w = OutOfFuel ->
   exists k agent sub_task w0,
     OrchestratorAgent.agent_lookup (OrchestratorAgent.sub_agents self) k = Some agent /\
     SwarmAgent.run E fuel agent sub_task w0 = OutOfFuel) /\
  (forall budget, bounded E budget -> budget w < fuel ->
   exists rs w', OrchestratorAgent.dispatch E fuel self tasks results w = Ret rs w').
Proof.
  intros Hall.
  assert (forall e w',
            OrchestratorAgent.dispatch E fuel self tasks results w <> Raise e w') as Hnr.
  { intros e w'. rewrite (dispatch_invoke_all E fuel self tasks results w Hall).
    apply invoke_all_never_raises. }
  split; [apply dispatch_invoke_all; assumption|].
  split; [exact Hnr|]. split; [|split].
  - intros rs w' H.
    rewrite (dispatch_invoke_all E fuel self tasks results w Hall) in H.
    apply (invoke_all_entries E) in H. exact H.
  - apply dispatch_OutOfFuel.
  - intros budget Hb Hf.
    pose proof (dispatch_ends E budget Hb fuel self tasks results w Hf) as He.
    destruct (OrchestratorAgent.dispatch E fuel self tasks results w) as [rs w'|e w'|]
      eqn:Hd; simpl in He.
    + eauto.
    + exfalso. eapply Hnr. reflexivity.
    + contradiction.
Qed.

Lemma dispatch_runs_resolved_steps_in_order_witness :
  Forall (fun task => plan_step task = true) mixed_plan /\
  resolved_steps orchestrator mixed_plan
    = [("content_analyzer", content_analyzer, VStr "read Y")] /\
  OrchestratorAgent.dispatch closing 1 orchestrator mixed_plan []
    [inr (final_reply "Y is about chips.")]
  = invoke_all closing 1 [("content_analyzer", content_analyzer, VStr "read Y")] []
      [inr (final_reply "Y is about chips.")].
Proof.
  assert (Forall (fun task => plan_step task = true) mixed_plan) as Hall
    by (repeat constructor).
  split; [exact Hall|]. split; [reflexivity|].
  exact (proj1 (dispatch_runs_resolved_steps_in_order closing 1 orchestrator mixed_plan []
                  [inr (final_reply "Y is about chips.")] Hall)).
Defined.

(** C6 as stated fails: a step whose [agent_name] is an array does not
    resolve, yet it is not skipped.  The membership test raises, the
    dispatch loop returns on no fuel, the step for the registered agent
    after it is never dispatched (its reply stays unread) and the run
    returns the error value. *)
Lemma unhashable_agent_name_aborts_the_run :
  OrchestratorAgent.plan closing orchestrator (VStr "AI news")
    [inr (final_reply unhashable_plan); inr (final_reply "Three articles found.")]
  = Ret [ unhashable_step;
          VDict [("agent_name", VStr "news_searcher"); ("sub_task", VStr "find X")] ]
        [inr (final_reply "Three articles found.")] /\
  resolved_step orchestrator unhashable_step = None /\
  ~ (exists fuel results w',
        OrchestratorAgent.dispatch closing fuel orchestrator
          [ unhashable_step;
            VDict [("agent_name", VStr "news_searcher"); ("sub_task", VStr "find X")] ]
          [] [inr (final_reply "Three articles found.")]
        = Ret results w') /\
  OrchestratorAgent.run closing 1 orchestrator (VStr "AI news")
    [inr (final_reply unhashable_plan); inr (final_reply "Three articles found.")]
  = Ret (VDict [("error", VStr "Orchestration error: unhashable type: 'list'")])
        [inr (final_reply "Three articles found.")].
Proof.
  split; [reflexivity|]. split; [reflexivity|]. split; [|reflexivity].
  intros (fuel & results & w' & H).
  destruct (dispatch_cons_raises closing orchestrator unhashable_step eq_refl) as [e He].
  rewrite He in H. discriminate H.
Qed.

(** C7 (as amended).  When the parsed plan has no step, or only
    well-formed steps (JSON objects whose [agent_name], if any, is
    hashable) none of which resolves, the dispatch loop returns the empty
    list in the world the plan left and the run is the synthesis phase on
    the empty list from there, not an early failure.  Once the endpoint
    replies to the synthesis request the value is the report with that
    reply's content and an empty [analysis_results]; when the synthesis
    call raises, the value is the error value. *)
Theorem empty_dispatch_still_synthesizes
  (E : Env) fuel self prompt (w : World E) tasks w1 :
  OrchestratorAgent.plan E self prompt w = Ret tasks w1 ->
  Forall (fun task => plan_step task = true) tasks ->
  resolved_steps self tasks = [] ->
  OrchestratorAgent.dispatch E fuel self tasks [] w1 = Ret [] w1 /\
  OrchestratorAgent.run E fuel self prompt w =
    try_except (OrchestratorAgent.synthesize E [])
               (fun e => ret (OrchestratorAgent.error_value e)) w1 /\
  (forall synthesis c cs w2,
      chat_completions_create E
        [ VDict [("role", VStr "system");
                 ("content",
                   VStr "Synthesize the news analysis results into a final report.")];
          VDict [("role", VStr "user");
                 ("content", VStr ("Results: " +:+ json_dumps E (VList [])))] ]
        None w1 = (inr synthesis, w2) ->
      choices synthesis = c :: cs ->
      OrchestratorAgent.run E fuel self prompt w
        = Ret (VDict [("data",
                        VDict [("output", content_value (content (message c)));
                               ("analysis_results", VList [])])]) w2) /\
  (forall e w2,
      chat_completions_create E
        [ VDict [("role", VStr "system");
                 ("content",
                   VStr "Synthesize the news analysis results into a final report.")];
          VDict [("role", VStr "user");
                 ("content", VStr ("Results: " +:+ json_dumps E (VList [])))] ]
        None w1 = (inl e, w2) ->
      OrchestratorAgent.run E fuel self prompt w
        = Ret (VDict [("error", VStr ("Orchestration error: " +:+ exn_str e))]) w2).
Proof.
  intros Hplan Hall Hnone.
  assert (OrchestratorAgent.dispatch E fuel self tasks [] w1 = Ret [] w1) as Hd.
  { rewrite (dispatch_invoke_all E fuel self tasks [] w1 Hall), Hnone. reflexivity. }
  assert (OrchestratorAgent.run E fuel self prompt w =
          try_except (OrchestratorAgent.synthesize E [])
            (fun e => ret (OrchestratorAgent.error_value e)) w1) as Hrun.
  { unfold OrchestratorAgent.run, try_except, OrchestratorAgent.run_body, bind.
    rewrite Hplan, Hd. reflexivity. }
  split; [exact Hd|]. split; [exact Hrun|]. split.
  - intros synthesis c cs w2 Hchat Hc. rewrite Hrun.
    unfold try_except, OrchestratorAgent.synthesize, bind, call.
    unfold OrchestratorAgent.synthesis_messages. rewrite Hchat. rewrite Hc. reflexivity.
  - intros e w2 Hchat. rewrite Hrun.
    unfold try_except, OrchestratorAgent.synthesize, bind, call.
    unfold OrchestratorAgent.synthesis_messages. rewrite Hchat. reflexivity.
Qed.

Lemma empty_dispatch_still_synthesizes_witness :
  OrchestratorAgent.plan closing orchestrator (VStr "AI news")
    [inr (final_reply unregistered_plan); inr (final_reply "Nothing to report.")]
  = Ret [VDict [("agent_name", VStr "searcher"); ("sub_task", VStr "find X")]]
        [inr (final_reply "Nothing to report.")] /\
  OrchestratorAgent.run closing 0 orchestrator (VStr "AI news")
    [inr (final_reply unregistered_plan); inr (final_reply "Nothing to report.")]
  = Ret (VDict [("data", VDict [("output", VStr "Nothing to report.");
                                ("analysis_results", VList [])])]) [].
Proof.
  split; [reflexivity|].
  refine (proj1 (proj2 (proj2 (empty_dispatch_still_synthesizes closing 0 orchestrator
                          (VStr "AI news")
                          [inr (final_reply unregistered_plan);
                           inr (final_reply "Nothing to report.")]
                          [VDict [("agent_name", VStr "searcher");
                                  ("sub_task", VStr "find X")]]
                          [inr (final_reply "Nothing to report.")] eq_refl _ eq_refl)))
            (final_reply "Nothing to report.") (final_choice "Nothing to report.")
            [] [] eq_refl eq_refl).
  repeat constructor.
Defined.

(** C7 as stated fails: in the plan [[7]] no step resolves, yet the run
    fails early.  The task has no [get], the loop raises, the synthesis is
    never asked for (its reply stays unread) and the run returns the error
    value; on no fuel does it return a report. *)
Lemma non_object_step_fails_before_synthesis :
  OrchestratorAgent.plan closing orchestrator (VStr "AI news")
    [inr (final_reply "[7]"); inr (final_reply "Report.")]
  = Ret [VNum 7] [inr (final_reply "Report.")] /\
  resolved_steps orchestrator [VNum 7] = [] /\
  OrchestratorAgent.run closing 1 orchestrator (VStr "AI news")
    [inr (final_reply "[7]"); inr (final_reply "Report.")]
  = Ret (VDict [("error",
                  VStr "Orchestration error: 'int' object has no attribute 'get'")])
        [inr (final_reply "Report.")] /\
  ~ (exists fuel output w',
        OrchestratorAgent.run closing fuel orchestrator (VStr "AI news")
          [inr (final_reply "[7]"); inr (final_reply "Report.")]
        = Ret (VDict [("data", VDict [("output", output);
                                      ("analysis_results", VList [])])]) w').
Proof.
  split; [reflexivity|]. split; [reflexivity|]. split; [reflexivity|].
  intros (fuel & output & w' & H).
  rewrite (orchestrator_run_mono closing 0 fuel) in H; [discriminate H|lia|discriminate].
Qed.

(** C8.  When the run returns a report, its [analysis_results] follow the
    plan: there are as many entries as resolved steps in the parsed plan,
    and the entry at position [i] carries the agent name and the sub-task
    of the [i]-th resolved step, with what that sub-agent returned. *)
Theorem analysis_results_follow_plan_order
  (E : Env) fuel self prompt (w : World E) output rs w' :
  OrchestratorAgent.run E fuel self prompt w
    = Ret (VDict [("data", VDict [("output", output);
                                  ("analysis_results", VList rs)])]) w' ->
  exists tasks w1,
    OrchestratorAgent.plan E self prompt w = Ret tasks w1 /\
    length rs = length (resolved_steps self tasks) /\
    forall i k agent sub_task,
      resolved_steps self tasks !! i = Some (k, agent, sub_task) ->
      exists result,
        rs !! i = Some (VDict [("agent", VStr k); ("task", sub_task);
                               ("result", result)]) /\
        agent_result result.
Proof.
  intros Hrun.
  destruct (orchestrator_run_result E _ _ _ _ _ _ Hrun) as [(c & results & Hv)|(e & Hv)];
    [|discriminate Hv].
  assert (results = rs) as -> by (unfold OrchestratorAgent.report in Hv; congruence).
  rewrite Hv in Hrun.
  destruct (orchestrator_run_report E _ _ _ _ _ _ _ Hrun)
    as (tasks & w1 & w2 & Hplan & Hd & _).
  exists tasks, w1. split; [exact Hplan|].
  pose proof (dispatch_Ret_plan_steps E _ _ _ _ _ _ _ Hd) as Hall.
  rewrite (dispatch_invoke_all E fuel self tasks [] w1 Hall) in Hd.
  destruct (invoke_all_entries E _ _ _ _ _ _ Hd) as (outs & Hlen & Houts & ->).
  simpl. split.
  - rewrite length_zip_with. lia.
  - intros i k agent sub_task Hi.
    destruct (lookup_lt_is_Some_2 outs i) as [result Hres].
    { rewrite Hlen. eapply lookup_lt_Some. exact Hi. }
    exists result. split.
    + rewrite lookup_zip_with, Hi. simpl. rewrite Hres. reflexivity.
    + eapply Forall_lookup_1; eassumption.
Qed.

Lemma analysis_results_follow_plan_order_witness :
  OrchestratorAgent.run closing 1 orchestrator (VStr "AI news") ordered_script
  = Ret (VDict [("data", VDict [("output", VStr "Report.");
                                ("analysis_results", VList ordered_results)])]) [] /\
  exists tasks w1,
    OrchestratorAgent.plan closing orchestrator (VStr "AI news") ordered_script
      = Ret tasks w1 /\
    length ordered_results = length (resolved_steps orchestrator tasks) /\
    forall i k agent sub_task,
      resolved_steps orchestrator tasks !! i = Some (k, agent, sub_task) ->
      exists result,
        ordered_results !! i
          = Some (VDict [("agent", VStr k); ("task", sub_task); ("result", result)]) /\
        agent_result result.
Proof.
  split; [reflexivity|].
  exact (analysis_results_follow_plan_order closing 1 orchestrator (VStr "AI news")
           ordered_script (VStr "Report.") ordered_results [] eq_refl).
Defined.

(** C9.  When the steps before it were dispatched and a resolved step's
    sub-agent returns an error value, the loop does not stop: the entry
    holding that error value is appended after the results of the earlier
    steps, and the loop goes on over the later steps from there. *)
Theorem dispatch_continues_after_error_result
  (E : Env) fuel self before d after results (w : World E) rs1 w1 k agent msg w2 :
  OrchestratorAgent.dispatch E fuel self before results w = Ret rs1 w1 ->
  dict_get d "agent_name" = VStr k ->
  OrchestratorAgent.agent_lookup (OrchestratorAgent.sub_agents self) k = Some agent ->
  SwarmAgent.run E fuel agent (dict_get d "sub_task") w1
    = Ret (VDict [("error", VStr msg)]) w2 ->
  OrchestratorAgent.dispatch E fuel self (before ++ VDict d :: after) results w
  = OrchestratorAgent.dispatch E fuel self after
      (rs1 ++ [VDict [("agent", VStr k); ("task", dict_get d "sub_task");
                      ("result", VDict [("error", VStr msg)])]]) w2.
Proof.
  intros Hbefore Hname Hagent Hrun.
  rewrite dispatch_app. rewrite (bind_Ret _ _ _ _ _ Hbefore).
  assert (resolved_step self (VDict d) = Some (k, agent, dict_get d "sub_task")) as Hr.
  { unfold resolved_step. rewrite Hname, Hagent. reflexivity. }
  rewrite (dispatch_cons_resolved E fuel self _ after rs1 w1 _ _ _ Hr).
  rewrite (bind_Ret _ _ _ _ _ Hrun). reflexivity.
Qed.

Lemma dispatch_continues_after_error_result_witness :
  SwarmAgent.run closing 1 news_searcher (VStr "find X")
    [inl (Raised "RateLimitError" "Too many requests"); inr (final_reply "Y is about chips.")]
  = Ret (VDict [("error", VStr "Error in agent execution: Too many requests")])
        [inr (final_reply "Y is about chips.")] /\
  OrchestratorAgent.dispatch closing 1 orchestrator failing_step_plan []
    [inl (Raised "RateLimitError" "Too many requests"); inr (final_reply "Y is about chips.")]
  = Ret [ VDict [ ("agent", VStr "news_searcher"); ("task", VStr "find X");
                  ("result",
                    VDict [("error", VStr "Error in agent execution: Too many requests")]) ];
          VDict [ ("agent", VStr "content_analyzer"); ("task", VStr "read Y");
                  ("result",
                    VDict [("data", VDict [("output", VStr "Y is about chips.")])]) ] ]
        [].
Proof.
  split; [reflexivity|].
  refine (eq_trans
           (dispatch_continues_after_error_result closing 1 orchestrator []
             [("agent_name", VStr "news_searcher"); ("sub_task", VStr "find X")]
             [VDict [("agent_name", VStr "content_analyzer"); ("sub_task", VStr "read Y")]]
             []
             [inl (Raised "RateLimitError" "Too many requests");
              inr (final_reply "Y is about chips.")]
             [] _ "news_searcher" news_searcher
             "Error in agent execution: Too many requests"
             [inr (final_reply "Y is about chips.")]
             eq_refl eq_refl eq_refl eq_refl) _).
  reflexivity.
Defined.

(** C10.  A step that is a JSON object without the key [agent_name], or
    with [agent_name] null, is skipped wherever it stands in the plan: the
    loop does what it does on the plan without that step, calling no
    sub-agent and adding no entry.  This is what happens to a step whose
    [agent_name] is a string that is no key of [sub_agents]. *)
Theorem step_without_agent_name_is_skipped
  (E : Env) fuel self before d after results (w : World E) :
  dict_lookup d "agent_name" = None \/ dict_lookup d "agent_name" = Some VNone ->
  OrchestratorAgent.dispatch E fuel self (before ++ VDict d :: after) results w
  = OrchestratorAgent.dispatch E fuel self (before ++ after) results w /\
  forall d' k,
    dict_lookup d' "agent_name" = Some (VStr k) ->
    OrchestratorAgent.agent_lookup (OrchestratorAgent.sub_agents self) k = None ->
    OrchestratorAgent.dispatch E fuel self (before ++ VDict d' :: after) results w
    = OrchestratorAgent.dispatch E fuel self (before ++ VDict d :: after) results w.
Proof.
  intros Hd.
  assert (forall d0, plan_step (VDict d0) = true -> resolved_step self (VDict d0) = None ->
          OrchestratorAgent.dispatch E fuel self (before ++ VDict d0 :: after) results w
          = OrchestratorAgent.dispatch E fuel self (before ++ after) results w) as Hskip.
  { intros d0 Hp Hr. rewrite !dispatch_app. unfold bind.
    destruct (OrchestratorAgent.dispatch E fuel self before results w); try reflexivity.
    apply dispatch_cons_skipped; assumption. }
  assert (dict_get d "agent_name" = VNone) as Hget.
  { unfold dict_get. destruct Hd as [-> | ->]; reflexivity. }
  assert (OrchestratorAgent.dispatch E fuel self (before ++ VDict d :: after) results w
          = OrchestratorAgent.dispatch E fuel self (before ++ after) results w) as H1.
  { apply Hskip; unfold plan_step, resolved_step; rewrite Hget; reflexivity. }
  split; [exact H1|].
  intros d' k Hk Hnone. rewrite H1.
  apply Hskip; unfold plan_step, resolved_step, dict_get; rewrite Hk; simpl;
    [reflexivity|rewrite Hnone; reflexivity].
Qed.

Lemma step_without_agent_name_is_skipped_witness :
  dict_lookup [("sub_task", VStr "find X")] "agent_name" = None /\
  OrchestratorAgent.dispatch closing 1 orchestrator
    [ VDict [("sub_task", VStr "find X")];
      VDict [("agent_name", VStr "content_analyzer"); ("sub_task", VStr "read Y")] ] []
    [inr (final_reply "Y is about chips.")]
  = OrchestratorAgent.dispatch closing 1 orchestrator
      [ VDict [("agent_name", VStr "content_analyzer"); ("sub_task", VStr "read Y")] ] []
      [inr (final_reply "Y is about chips.")].
Proof.
  split; [reflexivity|].
  exact (proj1 (step_without_agent_name_is_skipped closing 1 orchestrator []
                  [("sub_task", VStr "find X")]
                  [VDict [("agent_name", VStr "content_analyzer");
                          ("sub_task", VStr "read Y")]] []
                  [inr (final_reply "Y is about chips.")] (or_introl eq_refl))).
Defined.

(** * The tools *)

Section ToolFacts.
Variable E : Env.
Variable cse_list_execute : value -> ext (World E) (list (string * value)).
Variable create_json_object : list value -> ext (World E) ChatCompletion.
Variable get_text : value -> ext (World E) string.

Lemma search_news_unfold query w :
  Tools.search_news E cse_list_execute query w =
  match cse_list_execute query w with
  | (inl e, w') => (inr (VStr ("Error performing news search: " +:+ exn_str e)), w')
  | (inr result, w') =>
      match Tools.formatted_results result with
      | inl e => (inr (VStr ("Error performing news search: " +:+ exn_str e)), w')
      | inr l => (inr (VStr (json_dumps E (VList l))), w')
      end
  end.
Proof.
  unfold Tools.search_news, ext_try, ext_bind, ext_pure, ext_ret.
  destruct (cse_list_execute query w) as [[e|result] w']; [reflexivity|].
  destruct (Tools.formatted_results result); reflexivity.
Qed.

Lemma formatted_item_expected item entry :
  expected_entry item = Some entry -> Tools.formatted_item item = inr entry.
Proof.
  unfold expected_entry, Tools.formatted_item.
  destruct item as [| | | | |d]; try discriminate.
  simpl. destruct (dict_lookup d "title") as [title|]; [|discriminate].
  destruct (dict_lookup d "link") as [link|]; [|discriminate].
  destruct (dict_lookup d "snippet") as [snippet|]; [|discriminate].
  simpl. unfold item_date.
  destruct (dict_lookup d "pagemap") as [pagemap|]; simpl.
  - destruct pagemap as [| | | | |pm]; try discriminate. simpl.
    destruct (dict_lookup pm "metatags") as [metatags|]; simpl.
    + destruct metatags as [| | | |l|]; try discriminate.
      destruct l as [|tag l]; [discriminate|].
      destruct tag; try discriminate. simpl. intros [= <-]. reflexivity.
    + intros [= <-]. reflexivity.
  - intros [= <-]. reflexivity.
Qed.

Lemma formatted_items_expected items :
  Forall (fun item => is_Some (expected_entry item)) items ->
  exists entries,
    Tools.formatted_items items = inr entries /\
    Forall2 (fun item entry => expected_entry item = Some entry) items entries.
Proof.
  induction 1 as [|item items [entry Hentry] _ (entries & Hf & Hall)].
  - exists []. split; [reflexivity|constructor].
  - exists (entry :: entries). split.
    + simpl. rewrite (formatted_item_expected _ _ Hentry). simpl. rewrite Hf. reflexivity.
    + constructor; assumption.
Qed.

(** The first item that cannot be formatted decides the outcome. *)
Lemma formatted_items_app_fails before bad after entries e :
  Tools.formatted_items before = inr entries ->
  Tools.formatted_item bad = inl e ->
  Tools.formatted_items (before ++ bad :: after) = inl e.
Proof.
  revert entries. induction before as [|item before IH]; intros entries Hb Hbad.
  - simpl. rewrite Hbad. reflexivity.
  - simpl in Hb |- *. destruct (Tools.formatted_item item); [discriminate|].
    simpl in Hb |- *.
    destruct (Tools.formatted_items before) as [e'|entries'] eqn:Hf; [discriminate|].
    rewrite (IH entries' eq_refl Hbad). reflexivity.
Qed.

Lemma search_news_always_returns_text_aux query w :
  exists text,
    Tools.search_news E cse_list_execute query w
      = (inr (VStr text), snd (cse_list_execute query w)).
Proof.
  rewrite search_news_unfold.
  destruct (cse_list_execute query w) as [[e|result] w']; simpl; [eauto|].
  destruct (Tools.formatted_results result); eauto.
Qed.

(** X1.  [search_news] never raises and always returns a string, after
    the one request to the search API: when the request raises, or the
    answer cannot be formatted, the string is [Error performing news
    search: ] followed by the text of the exception. *)
Theorem search_news_always_returns_text query (w : World E) :
  (exists text,
      Tools.search_news E cse_list_execute query w
        = (inr (VStr text), snd (cse_list_execute query w))) /\
  (forall e w',
      cse_list_execute query w = (inl e, w') ->
      Tools.search_news E cse_list_execute query w
        = (inr (VStr ("Error performing news search: " +:+ exn_str e)), w')) /\
  (forall result e w',
      cse_list_execute query w = (inr result, w') ->
      Tools.formatted_results result = inl e ->
      Tools.search_news E cse_list_execute query w
        = (inr (VStr ("Error performing news search: " +:+ exn_str e)), w')).
Proof.
  rewrite search_news_unfold. split; [|split].
  - destruct (cse_list_execute query w) as [[e|result] w']; simpl; [eauto|].
    destruct (Tools.formatted_results result); eauto.
  - intros e w' ->. reflexivity.
  - intros result e w' -> ->. reflexivity.
Qed.

(** X2.  An answer of the search API without the key [items] is no error:
    the search returns the serialised empty list.  An answer whose [items]
    is a number, a boolean or null is one: the loop cannot go through it
    and the search returns the error text. *)
Theorem search_news_without_items query (w : World E) result w' :
  cse_list_execute query w = (inr result, w') ->
  (dict_lookup result "items" = None ->
   Tools.search_news E cse_list_execute query w
     = (inr (VStr (json_dumps E (VList []))), w')) /\
  (forall items,
      dict_lookup result "items" = Some items ->
      match items with VNone | VBool _ | VNum _ => True | _ => False end ->
      Tools.search_news E cse_list_execute query w
        = (inr (VStr ("Error performing news search: '" +:+ py_type_name items
                      +:+ "' object is not iterable")), w')).
Proof.
  intros Hcall. rewrite search_news_unfold, Hcall. unfold Tools.formatted_results.
  split.
  - intros ->. reflexivity.
  - intros items -> Hkind. destruct items; try contradiction; reflexivity.
Qed.

(** X3.  When every item of the answer is an object with a title, a link
    and a snippet, and a page map (if any) of the documented shape, the
    search returns the serialised list of one entry per item, in the order
    of the items, each with the four keys title, link, snippet and date,
    the date being the publication time of the first meta tag or null. *)
Theorem search_news_formats_every_item query (w : World E) result items w' :
  cse_list_execute query w = (inr result, w') ->
  dict_lookup result "items" = Some (VList items) ->
  Forall (fun item => is_Some (expected_entry item)) items ->
  exists entries,
    Tools.search_news E cse_list_execute query w
      = (inr (VStr (json_dumps E (VList entries))), w') /\
    length entries = length items /\
    Forall2 (fun item entry => expected_entry item = Some entry) items entries.
Proof.
  intros Hcall Hitems Hall.
  destruct (formatted_items_expected items Hall) as (entries & Hf & H2).
  exists entries. split; [|split].
  - rewrite search_news_unfold, Hcall. unfold Tools.formatted_results.
    rewrite Hitems. simpl. rewrite Hf. reflexivity.
  - symmetry. eapply Forall2_length. exact H2.
  - exact H2.
Qed.

(** X4.  The search is all or nothing: an item that cannot be formatted
    makes it return the error text for that item, whatever the items
    before and after it; for an object without the key [title] the text is
    [Error performing news search: 'title']. *)
Theorem search_news_one_bad_item_spoils_all
  query (w : World E) result before bad after w' :
  cse_list_execute query w = (inr result, w') ->
  dict_lookup result "items" = Some (VList (before ++ bad :: after)) ->
  Forall (fun item => is_Some (expected_entry item)) before ->
  (forall e,
      Tools.formatted_item bad = inl e ->
      Tools.search_news E cse_list_execute query w
        = (inr (VStr ("Error performing news search: " +:+ exn_str e)), w')) /\
  (forall d,
      bad = VDict d -> dict_lookup d "title" = None ->
      Tools.search_news E cse_list_execute query w
        = (inr (VStr "Error performing news search: 'title'"), w')).
Proof.
  intros Hcall Hitems Hall.
  destruct (formatted_items_expected before Hall) as (entries & Hf & _).
  assert (forall e, Tools.formatted_item bad = inl e ->
          Tools.search_news E cse_list_execute query w
          = (inr (VStr ("Error performing news search: " +:+ exn_str e)), w')) as Hgen.
  { intros e Hbad. rewrite search_news_unfold, Hcall. unfold Tools.formatted_results.
    rewrite Hitems. simpl.
    rewrite (formatted_items_app_fails before bad after entries e Hf Hbad). reflexivity. }
  split; [exact Hgen|].
  intros d -> Hnone.
  apply (Hgen (Raised "KeyError" "'title'")).
  unfold Tools.formatted_item. simpl. rewrite Hnone. reflexivity.
Qed.

(** X5.  The defaults of the date lookup cover the missing keys only.  For
    an item with title, link and snippet: without [pagemap], or with a page
    map without [metatags], the entry has the date null; with a page map
    whose [metatags] is the empty list, formatting raises the index error,
    so the whole search returns [Error performing news search: list index
    out of range]. *)
Theorem search_news_date_defaults d title link snippet :
  dict_lookup d "title" = Some title ->
  dict_lookup d "link" = Some link ->
  dict_lookup d "snippet" = Some snippet ->
  ((dict_lookup d "pagemap" = None \/
    exists pagemap, dict_lookup d "pagemap" = Some (VDict pagemap) /\
                    dict_lookup pagemap "metatags" = None) ->
   Tools.formatted_item (VDict d)
     = inr (VDict [("title", title); ("link", link); ("snippet", snippet);
                   ("date", VNone)])) /\
  (forall pagemap,
      dict_lookup d "pagemap" = Some (VDict pagemap) ->
      dict_lookup pagemap "metatags" = Some (VList []) ->
      Tools.formatted_item (VDict d) = inl IndexError /\
      forall query (w : World E) result before after w',
        cse_list_execute query w = (inr result, w') ->
        dict_lookup result "items" = Some (VList (before ++ VDict d :: after)) ->
        Forall (fun item => is_Some (expected_entry item)) before ->
        Tools.search_news E cse_list_execute query w
          = (inr (VStr "Error performing news search: list index out of range"), w')).
Proof.
  intros Ht Hl Hs. split.
  - intros H. apply formatted_item_expected. unfold expected_entry.
    rewrite Ht, Hl, Hs. simpl. unfold item_date.
    destruct H as [-> | (pagemap & -> & ->)]; reflexivity.
  - intros pagemap Hp Hm.
    assert (Tools.formatted_item (VDict d) = inl IndexError) as Hbad.
    { unfold Tools.formatted_item. simpl. rewrite Ht, Hl, Hs. simpl.
      rewrite Hp. simpl. rewrite Hm. reflexivity. }
    split; [exact Hbad|].
    intros query w result before after w' Hcall Hitems Hall.
    destruct (formatted_items_expected before Hall) as (entries & Hf & _).
    rewrite search_news_unfold, Hcall. unfold Tools.formatted_results.
    rewrite Hitems. simpl.
    rewrite (formatted_items_app_fails before _ after entries _ Hf Hbad). reflexivity.
Qed.

End ToolFacts.

(** ** Item assignment on dicts *)

Lemma dict_set_lookup_eq d k v : dict_lookup (Json.dict_set d k v) k = Some v.
Proof.
  induction d as [|[k' v'] d IH]; simpl.
  - rewrite String.eqb_refl. reflexivity.
  - destruct (String.eqb k' k) eqn:Hk; simpl.
    + rewrite String.eqb_refl. reflexivity.
    + rewrite Hk. exact IH.
Qed.

Lemma dict_set_lookup_ne d k v k0 :
  k0 <> k -> dict_lookup (Json.dict_set d k v) k0 = dict_lookup d k0.
Proof.
  intros Hne. induction d as [|[k' v'] d IH]; simpl.
  - destruct (String.eqb k k0) eqn:Hk; [|reflexivity].
    apply String.eqb_eq in Hk. congruence.
  - destruct (String.eqb k' k) eqn:Hk; simpl.
    + apply String.eqb_eq in Hk. subst k'.
      destruct (String.eqb k k0) eqn:Hk0; [|reflexivity].
      apply String.eqb_eq in Hk0. congruence.
    + rewrite IH. reflexivity.
Qed.

Lemma dict_set_keys d k v :
  map fst (Json.dict_set d k v) =
  match dict_lookup d k with
  | Some _ => map fst d
  | None => map fst d ++ [k]
  end.
Proof.
  induction d as [|[k' v'] d IH]; simpl; [reflexivity|].
  destruct (String.eqb k' k) eqn:Hk; simpl.
  - apply String.eqb_eq in Hk. subst k'. reflexivity.
  - rewrite IH. destruct (dict_lookup d k); reflexivity.
Qed.

Section AnalysisFacts.
Variable E : Env.
Variable create_json_object : list value -> ext (World E) ChatCompletion.
Variable get_text : value -> ext (World E) string.

Lemma extract_unfold text url w :
  Tools.extract_article_content E create_json_object text url w =
  match create_json_object (Tools.analysis_messages text) w with
  | (inl e, w') => (inr (analysis_failure e url), w')
  | (inr response, w') =>
      match choices response with
      | [] => (inr (analysis_failure IndexError url), w')
      | c :: _ =>
          match OrchestratorAgent.loads_content E (content (message c)) with
          | inl e => (inr (analysis_failure e url), w')
          | inr article_json =>
              if truthy url then
                match setitem article_json "url" url with
                | inl e => (inr (analysis_failure e url), w')
                | inr article => (inr article, w')
                end
              else (inr article_json, w')
          end
      end
  end.
Proof.
  unfold Tools.extract_article_content, Tools.extract_body, ext_try, ext_bind,
    ext_pure, ext_ret, analysis_failure, Tools.url_or_none.
  destruct (create_json_object (Tools.analysis_messages text) w) as [[e|response] w'];
    [reflexivity|].
  destruct (choices response) as [|c cs]; [reflexivity|].
  destruct (OrchestratorAgent.loads_content E (content (message c))) as [e|a];
    [reflexivity|].
  destruct (truthy url); [|reflexivity].
  destruct (setitem a "url" url); reflexivity.
Qed.

Lemma extract_returns text url w :
  exists v, Tools.extract_article_content E create_json_object text url w
            = (inr v, snd (create_json_object (Tools.analysis_messages text) w)).
Proof.
  rewrite extract_unfold.
  destruct (create_json_object (Tools.analysis_messages text) w) as [[e|response] w'];
    simpl; [eauto|].
  destruct (choices response) as [|c cs]; [eauto|].
  destruct (OrchestratorAgent.loads_content E (content (message c))) as [e|a]; [eauto|].
  destruct (truthy url); [|eauto].
  destruct (setitem a "url" url); eauto.
Qed.

(** X6.  [extract_article_content] never raises and returns after its one
    call of the endpoint.  When the endpoint raises, replies without a
    choice or with a content that is not JSON, the value is the dict with
    the two keys [error] ([Failed to analyze article: ] and the text of the
    exception) and [url] (the given url, or null when the url is null or
    empty). *)
Theorem extract_article_content_reports_failures text url (w : World E) :
  (exists v, Tools.extract_article_content E create_json_object text url w
             = (inr v, snd (create_json_object (Tools.analysis_messages text) w))) /\
  (forall e w',
      create_json_object (Tools.analysis_messages text) w = (inl e, w') ->
      Tools.extract_article_content E create_json_object text url w
        = (inr (VDict [ ("error", VStr ("Failed to analyze article: " +:+ exn_str e));
                        ("url", if truthy url then url else VNone) ]), w')) /\
  (forall response c cs e w',
      create_json_object (Tools.analysis_messages text) w = (inr response, w') ->
      choices response = c :: cs ->
      OrchestratorAgent.loads_content E (content (message c)) = inl e ->
      Tools.extract_article_content E create_json_object text url w
        = (inr (VDict [ ("error", VStr ("Failed to analyze article: " +:+ exn_str e));
                        ("url", if truthy url then url else VNone) ]), w')) /\
  (forall response w',
      create_json_object (Tools.analysis_messages text) w = (inr response, w') ->
      choices response = [] ->
      Tools.extract_article_content E create_json_object text url w
        = (inr (VDict [ ("error", VStr "Failed to analyze article: list index out of range");
                        ("url", if truthy url then url else VNone) ]), w')).
Proof.
  split; [apply extract_returns|].
  rewrite extract_unfold. split; [|split].
  - intros e w' ->. reflexivity.
  - intros response c cs e w' -> -> ->. reflexivity.
  - intros response w' -> ->. reflexivity.
Qed.

(** X7.  When the reply parses to a JSON object and a url is given (not
    null, not empty), the value is that object with [url] bound to the
    given url: a [url] of the model's own is overwritten in place, a
    missing one is added at the end, and every other key keeps its value
    and its position. *)
Theorem extract_article_content_sets_url
  text url (w : World E) response c cs d w' :
  create_json_object (Tools.analysis_messages text) w = (inr response, w') ->
  choices response = c :: cs ->
  OrchestratorAgent.loads_content E (content (message c)) = inr (VDict d) ->
  truthy url = true ->
  exists d',
    Tools.extract_article_content E create_json_object text url w = (inr (VDict d'), w') /\
    dict_lookup d' "url" = Some url /\
    (forall k, k <> "url" -> dict_lookup d' k = dict_lookup d k) /\
    map fst d' = match dict_lookup d "url" with
                 | Some _ => map fst d
                 | None => map fst d ++ ["url"]
                 end.
Proof.
  intros Hcall Hc Hj Hu. exists (Json.dict_set d "url" url).
  split; [|split; [|split]].
  - rewrite extract_unfold, Hcall, Hc, Hj, Hu. reflexivity.
  - apply dict_set_lookup_eq.
  - intros k Hk. apply dict_set_lookup_ne. exact Hk.
  - apply dict_set_keys.
Qed.

(** X8.  Without a url (null or empty) the parsed reply is returned as it
    is, whatever JSON value it is, so not always a dict.  With a url, a
    reply that parses to anything but an object makes the function return
    the failure dict, the item assignment having raised a type error. *)
Theorem extract_article_content_non_object_reply
  text url (w : World E) response c cs article_json w' :
  create_json_object (Tools.analysis_messages text) w = (inr response, w') ->
  choices response = c :: cs ->
  OrchestratorAgent.loads_content E (content (message c)) = inr article_json ->
  (truthy url = false ->
   Tools.extract_article_content E create_json_object text url w
     = (inr article_json, w')) /\
  (truthy url = true ->
   (forall d, article_json <> VDict d) ->
   exists msg,
     Tools.extract_article_content E create_json_object text url w
       = (inr (VDict [ ("error", VStr ("Failed to analyze article: " +:+ msg));
                       ("url", url) ]), w') /\
     setitem article_json "url" url = inl (Raised "TypeError" msg)).
Proof.
  intros Hcall Hc Hj. rewrite extract_unfold, Hcall, Hc, Hj. split.
  - intros ->. reflexivity.
  - intros Hu Hnd. rewrite Hu. unfold analysis_failure. rewrite Hu.
    destruct article_json; simpl; try (eexists; split; reflexivity).
    exfalso. eapply Hnd. reflexivity.
Qed.

Lemma scrape_unfold url analyze w :
  Tools.scrape_news_article E create_json_object get_text url analyze w =
  match get_text url w with
  | (inl e, w') => (inr (VStr ("Error scraping article: " +:+ exn_str e)), w')
  | (inr text, w') =>
      if truthy analyze
      then Tools.extract_article_content E create_json_object (VStr text) url w'
      else (inr (VStr text), w')
  end.
Proof.
  unfold Tools.scrape_news_article, ext_try, ext_bind, ext_ret.
  destruct (get_text url w) as [[e|text] w']; [reflexivity|].
  destruct (truthy analyze); [|reflexivity].
  destruct (extract_returns (VStr text) url w') as [v ->]. reflexivity.
Qed.

(** X9.  [scrape_news_article] never raises.  When the page cannot be
    fetched it returns the string [Error scraping article: ] followed by
    the text of the exception, whatever [analyze] is; when [analyze] is
    false (or null, zero or empty) it returns the text of the page, and
    the analysis endpoint is not called. *)
Theorem scrape_news_article_reports_fetch_failures url analyze (w : World E) :
  (exists v w',
      Tools.scrape_news_article E create_json_object get_text url analyze w
        = (inr v, w')) /\
  (forall e w',
      get_text url w = (inl e, w') ->
      Tools.scrape_news_article E create_json_object get_text url analyze w
        = (inr (VStr ("Error scraping article: " +:+ exn_str e)), w')) /\
  (forall text w',
      get_text url w = (inr text, w') ->
      truthy analyze = false ->
      Tools.scrape_news_article E create_json_object get_text url analyze w
        = (inr (VStr text), w')).
Proof.
  rewrite scrape_unfold. split; [|split].
  - destruct (get_text url w) as [[e|text] w']; [eauto|].
    destruct (truthy analyze); [|eauto].
    destruct (extract_returns (VStr text) url w') as [v ->]. eauto.
  - intros e w' ->. reflexivity.
  - intros text w' -> ->. reflexivity.
Qed.

(** X10.  With [analyze] true and the page fetched, the value is what
    [extract_article_content] returns for the page's text and the url.  A
    failure of the analysis never reaches the handler of the scraper: when
    the endpoint raises, the value is the failure dict carrying the url,
    not the string [Error scraping article: ...]. *)
Theorem scrape_news_article_analysis_failure_is_a_dict
  url analyze (w : World E) text w1 :
  get_text url w = (inr text, w1) ->
  truthy analyze = true ->
  Tools.scrape_news_article E create_json_object get_text url analyze w
    = Tools.extract_article_content E create_json_object (VStr text) url w1 /\
  (forall e w2,
      create_json_object (Tools.analysis_messages (VStr text)) w1 = (inl e, w2) ->
      Tools.scrape_news_article E create_json_object get_text url analyze w
        = (inr (VDict [ ("error", VStr ("Failed to analyze article: " +:+ exn_str e));
                        ("url", if truthy url then url else VNone) ]), w2)).
Proof.
  intros Hget Ha. rewrite scrape_unfold, Hget, Ha. split; [reflexivity|].
  intros e w2 Hcall. rewrite extract_unfold, Hcall. reflexivity.
Qed.

End AnalysisFacts.

(** * Further properties of the agents *)

Section RunFacts.
Variable E : Env.
Implicit Types (self : SwarmAgent.t) (messages : list value) (w : World E).

(** The run after the first reply of the endpoint. *)
Lemma run_after_first_reply fuel self prompt w first w1 :
  chat_completions_create E (SwarmAgent.initial_messages self prompt)
    (SwarmAgent.functions_arg self) w = (inr first, w1) ->
  SwarmAgent.run E fuel self prompt w =
  try_except
    (let! response :=
       SwarmAgent.tool_loop E fuel self (SwarmAgent.initial_messages self prompt) first in
     let! c := index0 (choices response) in
     ret (SwarmAgent.data_value c))
    (fun e => ret (SwarmAgent.error_value e)) w1.
Proof.
  intros Hchat. unfold SwarmAgent.run, try_except, SwarmAgent.run_body, bind, call.
  rewrite Hchat. reflexivity.
Qed.


(** X11.  A first reply that is no tool-call request ends the run at
    once: the value is [{data: {output: content}}] with the content of the
    reply (null when it has none), after that single call of the endpoint
    and whatever fuel is left.  When that call raises, or its reply has no
    choice, the value is the error value. *)
Theorem run_returns_first_final_reply fuel self prompt w :
  (forall first c cs w1,
      chat_completions_create E (SwarmAgent.initial_messages self prompt)
        (SwarmAgent.functions_arg self) w = (inr first, w1) ->
      choices first = c :: cs ->
      finish_reason c <> "function_call" ->
      SwarmAgent.run E (S fuel) self prompt w
        = Ret (VDict [("data", VDict [("output", content_value (content (message c)))])])
              w1) /\
  (forall e w1,
      chat_completions_create E (SwarmAgent.initial_messages self prompt)
        (SwarmAgent.functions_arg self) w = (inl e, w1) ->
      SwarmAgent.run E fuel self prompt w
        = Ret (VDict [("error", VStr ("Error in agent execution: " +:+ exn_str e))]) w1) /\
  (forall first w1,
      chat_completions_create E (SwarmAgent.initial_messages self prompt)
        (SwarmAgent.functions_arg self) w = (inr first, w1) ->
      choices first = [] ->
      SwarmAgent.run E (S fuel) self prompt w
        = Ret (VDict [("error",
                        VStr "Error in agent execution: list index out of range")]) w1).
Proof.
  split; [|split].
  - intros first c cs w1 Hchat Hc Hf.
    rewrite (run_after_first_reply _ _ _ _ _ _ Hchat).
    unfold try_except, bind at 1.
    rewrite tool_loop_stop.
    + unfold bind, index0. rewrite Hc. reflexivity.
    + unfold continues. rewrite Hc. apply String.eqb_neq. exact Hf.
    + rewrite Hc. discriminate.
  - intros e w1 Hchat.
    unfold SwarmAgent.run, try_except, SwarmAgent.run_body, bind, call.
    rewrite Hchat. reflexivity.
  - intros first w1 Hchat Hc.
    rewrite (run_after_first_reply _ _ _ _ _ _ Hchat).
    unfold try_except, bind at 1. simpl. unfold bind at 1. rewrite Hc. reflexivity.
Qed.


Lemma round_appends self messages c w mr w' :
  SwarmAgent.round E self messages c w = Ret mr w' ->
  exists fc function_response,
    function_call (message c) = Some fc /\
    fst mr = messages ++ SwarmAgent.tool_messages E fc function_response.
Proof.
  unfold SwarmAgent.round, SwarmAgent.requested_call, bind.
  destruct (function_call (message c)) as [fc|]; simpl; [|discriminate].
  destruct (json_loads E (fc_arguments fc)) as [e|args]; simpl; [discriminate|].
  destruct (SwarmAgent.invoke E (fc_name fc) args w) as [r w1|e w1|]; try discriminate.
  destruct (call _ w1) as [r' w2|e w2|]; try discriminate.
  intros [= <- _]. simpl. eauto.
Qed.

(** X13.  The conversation of a run is append-only: after any number of
    rounds it is the conversation the loop started from, followed by one
    assistant message and one function message per round, in that order. *)
Theorem conversation_is_append_only n : forall self messages response w messages' response' w',
  iterate_rounds E n self messages response w = Ret (messages', response') w' ->
  exists added k,
    messages' = messages ++ added /\
    k <= n /\
    roles added = concat (replicate k [VStr "assistant"; VStr "function"]).
Proof.
  induction n as [|n IH]; intros self messages response w messages' response' w' H.
  - injection H as <- _ _. exists [], 0. rewrite app_nil_r. auto.
  - simpl in H. unfold bind, index0 in H.
    destruct (choices response) as [|c cs]; simpl in H; [discriminate|].
    destruct (String.eqb (finish_reason c) "function_call").
    + destruct (SwarmAgent.round E self messages c w) as [mr w1|e w1|] eqn:Hround;
        try discriminate.
      destruct (round_appends _ _ _ _ _ _ Hround) as (fc & resp & _ & Hmr).
      destruct (IH _ _ _ _ _ _ _ H) as (added & k & -> & Hk & Hroles).
      exists (SwarmAgent.tool_messages E fc resp ++ added), (S k).
      split; [rewrite Hmr, <- app_assoc; reflexivity|]. split; [lia|].
      unfold roles in *. rewrite map_app, Hroles. reflexivity.
    + injection H as <- _ _. exists [], 0. rewrite app_nil_r.
      split; [reflexivity|]. split; [lia|reflexivity].
Qed.

End RunFacts.

Section BoundTools.
Variable E : Env.
Variable cse_list_execute : value -> ext (World E) (list (string * value)).
Variable create_json_object : list value -> ext (World E) ChatCompletion.
Variable get_text : value -> ext (World E) string.
Abbreviation T := (with_tools E cse_list_execute create_json_object get_text).

Lemma invoke_search_news kwargs (w : World E) :
  SwarmAgent.invoke T "search_news" (VDict kwargs) w
  = call (Tools.call_search_news E cse_list_execute kwargs) w.
Proof.
  unfold SwarmAgent.invoke, SwarmAgent.tool_implementations.
  rewrite lookup_insert_eq. reflexivity.
Qed.

Lemma invoke_scrape_news_article kwargs (w : World E) :
  SwarmAgent.invoke T "scrape_news_article" (VDict kwargs) w
  = call (Tools.call_scrape_news_article E create_json_object get_text kwargs) w.
Proof.
  unfold SwarmAgent.invoke, SwarmAgent.tool_implementations.
  rewrite lookup_insert_ne by discriminate. rewrite lookup_insert_eq. reflexivity.
Qed.

(** X14.  With the module's own functions behind the two tool names, a
    tool call whose arguments bind never raises inside the loop: a search
    with [query] gives a string, a scrape with [url] (and [analyze] or not)
    gives a value, whatever the search API, the page or the analysis
    endpoint do.  Their failures come back as results for the model to
    read; they do not end the run. *)
Theorem bound_tool_calls_never_raise kwargs (w : World E) :
  (Tools.unexpected_keyword ["query"] kwargs = None ->
   is_Some (dict_lookup kwargs "query") ->
   exists text w',
     SwarmAgent.invoke T "search_news" (VDict kwargs) w = Ret (VStr text) w') /\
  (Tools.unexpected_keyword ["url"; "analyze"] kwargs = None ->
   is_Some (dict_lookup kwargs "url") ->
   exists v w',
     SwarmAgent.invoke T "scrape_news_article" (VDict kwargs) w = Ret v w').
Proof.
  split.
  - intros Hun [query Hq]. rewrite invoke_search_news.
    unfold call, Tools.call_search_news. rewrite Hun, Hq.
    destruct (search_news_always_returns_text_aux E cse_list_execute query w)
      as [text ->]. eauto.
  - intros Hun [url Hu]. rewrite invoke_scrape_news_article.
    unfold call, Tools.call_scrape_news_article. rewrite Hun, Hu.
    rewrite scrape_unfold.
    destruct (get_text url w) as [[e|text] w']; [eauto|].
    destruct (truthy _); [|eauto].
    destruct (extract_returns E create_json_object (VStr text) url w') as [v ->]. eauto.
Qed.


End BoundTools.

Section OrchestratorFacts.
Variable E : Env.
Implicit Types (self : OrchestratorAgent.t) (tasks results : list value) (w : World E).

(** X16.  A planning reply that cannot be read as JSON (no JSON text, or
    no content at all), a planning reply without a choice and a planning
    call that raises all end the run with [{error: Orchestration error:
    ...}] right after the planning call, on any fuel: no sub-agent is run
    and no synthesis is asked for. *)
Theorem unreadable_plan_ends_the_run fuel self prompt w :
  (forall planning_response c cs e w1,
      chat_completions_create E (OrchestratorAgent.planning_messages self prompt) None w
        = (inr planning_response, w1) ->
      choices planning_response = c :: cs ->
      OrchestratorAgent.loads_content E (content (message c)) = inl e ->
      OrchestratorAgent.run E fuel self prompt w
        = Ret (VDict [("error", VStr ("Orchestration error: " +:+ exn_str e))]) w1) /\
  (forall planning_response c cs w1,
      chat_completions_create E (OrchestratorAgent.planning_messages self prompt) None w
        = (inr planning_response, w1) ->
      choices planning_response = c :: cs ->
      content (message c) = None ->
      OrchestratorAgent.run E fuel self prompt w
        = Ret (VDict [("error",
                        VStr "Orchestration error: the JSON object must be str, bytes or bytearray, not NoneType")])
              w1) /\
  (forall planning_response w1,
      chat_completions_create E (OrchestratorAgent.planning_messages self prompt) None w
        = (inr planning_response, w1) ->
      choices planning_response = [] ->
      OrchestratorAgent.run E fuel self prompt w
        = Ret (VDict [("error", VStr "Orchestration error: list index out of range")]) w1) /\
  (forall e w1,
      chat_completions_create E (OrchestratorAgent.planning_messages self prompt) None w
        = (inl e, w1) ->
      OrchestratorAgent.run E fuel self prompt w
        = Ret (VDict [("error", VStr ("Orchestration error: " +:+ exn_str e))]) w1).
Proof.
  unfold OrchestratorAgent.run, try_except, OrchestratorAgent.run_body,
    OrchestratorAgent.plan, bind, call.
  repeat split.
  - intros r c cs e w1 -> Hc Hj. rewrite Hc. simpl. rewrite Hj. reflexivity.
  - intros r c cs w1 -> Hc Hn. rewrite Hc. simpl. rewrite Hn. reflexivity.
  - intros r w1 -> Hc. rewrite Hc. reflexivity.
  - intros e w1 ->. reflexivity.
Qed.

(** X17.  A task the loop cannot process (not a JSON object, or with an
    array or object as [agent_name]) ends the whole run with the error
    value at the point the loop had reached: the sub-agents of the earlier
    steps have run, but their results are not returned, the later steps
    are not dispatched and no synthesis is asked for. *)
Theorem unprocessable_step_discards_results
  fuel self prompt w before bad after w1 results w2 :
  OrchestratorAgent.plan E self prompt w = Ret (before ++ bad :: after) w1 ->
  OrchestratorAgent.dispatch E fuel self before [] w1 = Ret results w2 ->
  plan_step bad = false ->
  exists e,
    OrchestratorAgent.run E fuel self prompt w
      = Ret (VDict [("error", VStr ("Orchestration error: " +:+ exn_str e))]) w2 /\
    ((forall d, bad <> VDict d) -> e = AttributeError (py_type_name bad) "get") /\
    (forall d, bad = VDict d ->
               e = TypeError_unhashable (py_type_name (dict_get d "agent_name"))).
Proof.
  intros Hplan Hbefore Hbad.
  assert (exists e,
             (forall tasks rs w0,
                 OrchestratorAgent.dispatch E fuel self (bad :: tasks) rs w0 = Raise e w0) /\
             ((forall d, bad <> VDict d) -> e = AttributeError (py_type_name bad) "get") /\
             (forall d, bad = VDict d ->
                        e = TypeError_unhashable (py_type_name (dict_get d "agent_name"))))
    as (e & Hraise & H1 & H2).
  { unfold plan_step in Hbad. destruct bad as [| | | | |d].
    1-5: eexists; split; [intros; reflexivity|]; split; [intros _; reflexivity|discriminate].
    destruct (dict_get d "agent_name") eqn:Hn; try discriminate.
    - eexists. split; [|split].
      + intros. simpl. unfold bind. simpl. rewrite Hn. reflexivity.
      + intros Hd0. exfalso. apply (Hd0 d). reflexivity.
      + intros d' [= <-]. rewrite Hn. reflexivity.
    - eexists. split; [|split].
      + intros. simpl. unfold bind. simpl. rewrite Hn. reflexivity.
      + intros Hd0. exfalso. apply (Hd0 d). reflexivity.
      + intros d' [= <-]. rewrite Hn. reflexivity. }
  exists e. split; [|split; assumption].
  unfold OrchestratorAgent.run, try_except, OrchestratorAgent.run_body.
  rewrite (bind_Ret _ _ _ _ _ Hplan).
  unfold bind. rewrite dispatch_app. unfold bind. rewrite Hbefore, Hraise. reflexivity.
Qed.

(** X18.  A step that names a registered agent but has no [sub_task] is
    dispatched all the same: the sub-agent is run on the prompt null, and
    the entry appended for it has the task null. *)
Theorem step_without_sub_task_runs_on_null
  fuel self d k agent tasks results w :
  dict_lookup d "agent_name" = Some (VStr k) ->
  OrchestratorAgent.agent_lookup (OrchestratorAgent.sub_agents self) k = Some agent ->
  dict_lookup d "sub_task" = None ->
  OrchestratorAgent.dispatch E fuel self (VDict d :: tasks) results w =
  bind (SwarmAgent.run E fuel agent VNone)
       (fun result =>
          OrchestratorAgent.dispatch E fuel self tasks
            (results ++ [VDict [("agent", VStr k); ("task", VNone); ("result", result)]])) w.
Proof.
  intros Hname Hagent Htask.
  apply dispatch_cons_resolved.
  unfold resolved_step, dict_get. rewrite Hname, Htask. simpl. rewrite Hagent.
  reflexivity.
Qed.

End OrchestratorFacts.

(** * The properties above on concrete runs *)

Lemma search_news_without_items_witness :
  bare_search (VStr "ai") [] = (inr [("kind", VStr "customsearch#search")], []) /\
  Tools.search_news closing bare_search (VStr "ai") [] = (inr (VStr "[]"), []).
Proof.
  split; [reflexivity|].
  exact (proj1 (search_news_without_items closing bare_search (VStr "ai") [] _ []
                  eq_refl) eq_refl).
Defined.

Lemma search_news_formats_every_item_witness :
  Forall (fun item => is_Some (expected_entry item)) [dated_item; undated_item] /\
  exists entries,
    Tools.search_news closing (canned_search [dated_item; undated_item]) (VStr "ai") []
      = (inr (VStr (Json.dumps (VList entries))), []) /\
    length entries = 2 /\
    Forall2 (fun item entry => expected_entry item = Some entry)
      [dated_item; undated_item] entries.
Proof.
  assert (Forall (fun item => is_Some (expected_entry item)) [dated_item; undated_item])
    as Hall by (repeat constructor; eexists; reflexivity).
  split; [exact Hall|].
  exact (search_news_formats_every_item closing
           (canned_search [dated_item; undated_item]) (VStr "ai") [] _
           [dated_item; undated_item] [] eq_refl eq_refl Hall).
Defined.

Lemma search_news_one_bad_item_spoils_all_witness :
  Forall (fun item => is_Some (expected_entry item)) [dated_item] /\
  Tools.search_news closing (canned_search [dated_item; untitled_item; undated_item])
    (VStr "ai") []
  = (inr (VStr "Error performing news search: 'title'"), []).
Proof.
  assert (Forall (fun item => is_Some (expected_entry item)) [dated_item])
    as Hall by (repeat constructor; eexists; reflexivity).
  split; [exact Hall|].
  exact (proj2 (search_news_one_bad_item_spoils_all closing
                  (canned_search [dated_item; untitled_item; undated_item])
                  (VStr "ai") [] _ [dated_item] untitled_item [undated_item] []
                  eq_refl eq_refl Hall)
               _ eq_refl eq_refl).
Defined.

Lemma search_news_date_defaults_witness :
  Tools.formatted_item undated_item
  = inr (VDict [ ("title", VStr "Markets react");
                 ("link", VStr "https://example.com/markets");
                 ("snippet", VStr "Shares rose."); ("date", VNone) ]).
Proof.
  exact (proj1 (search_news_date_defaults closing bare_search
                  [ ("title", VStr "Markets react");
                    ("link", VStr "https://example.com/markets");
                    ("snippet", VStr "Shares rose.") ]
                  _ _ _ eq_refl eq_refl eq_refl)
               (or_introl eq_refl)).
Defined.

Lemma extract_article_content_sets_url_witness :
  truthy (VStr "https://example.com/chips") = true /\
  exists d',
    Tools.extract_article_content closing scripted_analysis (VStr "Article body.")
      (VStr "https://example.com/chips") [inr (final_reply article_text)]
    = (inr (VDict d'), []) /\
    dict_lookup d' "url" = Some (VStr "https://example.com/chips") /\
    (forall k, k <> "url" ->
               dict_lookup d' k
               = dict_lookup [ ("title", VStr "Chips act passes");
                               ("url", VStr "https://model.invalid/");
                               ("category", VStr "politics") ] k) /\
    map fst d' = ["title"; "url"; "category"].
Proof.
  split; [reflexivity|].
  exact (extract_article_content_sets_url closing scripted_analysis (VStr "Article body.")
           (VStr "https://example.com/chips") [inr (final_reply article_text)]
           (final_reply article_text) (final_choice article_text) []
           [ ("title", VStr "Chips act passes"); ("url", VStr "https://model.invalid/");
             ("category", VStr "politics") ] []
           eq_refl eq_refl eq_refl eq_refl).
Defined.

Lemma extract_article_content_non_object_reply_witness :
  Tools.extract_article_content closing scripted_analysis (VStr "Article body.") VNone
    [inr (final_reply "[]")]
  = (inr (VList []), []).
Proof.
  exact (proj1 (extract_article_content_non_object_reply closing scripted_analysis
                  (VStr "Article body.") VNone [inr (final_reply "[]")]
                  (final_reply "[]") (final_choice "[]") [] (VList []) []
                  eq_refl eq_refl eq_refl)
               eq_refl).
Defined.

Lemma scrape_news_article_analysis_failure_is_a_dict_witness :
  Tools.scrape_news_article closing scripted_analysis canned_page
    (VStr "https://example.com/chips") (VBool true) []
  = (inr (VDict [ ("error", VStr "Failed to analyze article: Connection error.");
                  ("url", VStr "https://example.com/chips") ]), []).
Proof.
  exact (proj2 (scrape_news_article_analysis_failure_is_a_dict closing scripted_analysis
                  canned_page (VStr "https://example.com/chips") (VBool true) []
                  "Article body." [] eq_refl eq_refl)
               (Raised "APIConnectionError" "Connection error.") [] eq_refl).
Defined.


Lemma conversation_is_append_only_witness :
  exists added k,
    SwarmAgent.initial_messages news_searcher (VStr "AI news")
      ++ SwarmAgent.tool_messages closing
           {| fc_name := "search_news"; fc_arguments := query_arguments "ai" |}
           (VStr "[]")
    = SwarmAgent.initial_messages news_searcher (VStr "AI news") ++ added /\
    k <= 3 /\
    roles added = concat (replicate k [VStr "assistant"; VStr "function"]).
Proof.
  exact (conversation_is_append_only closing 3 news_searcher
           (SwarmAgent.initial_messages news_searcher (VStr "AI news"))
           (tool_request "search_news" (query_arguments "ai"))
           [inr (final_reply "done")] _ (final_reply "done") [] eq_refl).
Defined.

Lemma unprocessable_step_discards_results_witness :
  plan_step (VNum 7) = false /\
  exists e,
    OrchestratorAgent.run closing 1 orchestrator (VStr "AI news")
      [inr (final_reply broken_plan); inr (final_reply "Three articles found.")]
    = Ret (VDict [("error", VStr ("Orchestration error: " +:+ exn_str e))]) [] /\
    ((forall d, VNum 7 <> VDict d) -> e = AttributeError "int" "get") /\
    (forall d, VNum 7 = VDict d ->
               e = TypeError_unhashable (py_type_name (dict_get d "agent_name"))).
Proof.
  split; [reflexivity|].
  exact (unprocessable_step_discards_results closing 1 orchestrator (VStr "AI news")
           [inr (final_reply broken_plan); inr (final_reply "Three articles found.")]
           [VDict [("agent_name", VStr "news_searcher"); ("sub_task", VStr "find X")]]
           (VNum 7)
           [VDict [("agent_name", VStr "content_analyzer"); ("sub_task", VStr "read Y")]]
           [inr (final_reply "Three articles found.")] [searcher_entry] []
           eq_refl eq_refl eq_refl).
Defined.

Lemma step_without_sub_task_runs_on_null_witness :
  OrchestratorAgent.dispatch closing 1 orchestrator
    [VDict [("agent_name", VStr "news_searcher")]] [] [inr (final_reply "Nothing asked.")]
  = Ret [ VDict [ ("agent", VStr "news_searcher"); ("task", VNone);
                  ("result", VDict [("data", VDict [("output", VStr "Nothing asked.")])]) ] ]
        [].
Proof.
  refine (eq_trans
            (step_without_sub_task_runs_on_null closing 1 orchestrator
               [("agent_name", VStr "news_searcher")] "news_searcher" news_searcher
               [] [] [inr (final_reply "Nothing asked.")] eq_refl eq_refl eq_refl) _).
  reflexivity.
Defined.

Lemma bound_tool_calls_never_raise_witness :
  exists text w',
    SwarmAgent.invoke (canned [untitled_item]) "search_news"
      (VDict [("query", VStr "ai")]) [] = Ret (VStr text) w'.
Proof.
  exact (proj1 (bound_tool_calls_never_raise closing (canned_search [untitled_item])
                  scripted_analysis canned_page [("query", VStr "ai")] [])
               eq_refl (ex_intro _ (VStr "ai") eq_refl)).
Defined.


Lemma unreadable_plan_ends_the_run_witness :
  OrchestratorAgent.run closing 5 orchestrator (VStr "AI news")
    [inr (final_reply "Here is my plan: first search, then read.");
     inr (final_reply "unused")]
  = Ret (VDict [("error", VStr "Orchestration error: Expecting value")])
        [inr (final_reply "unused")].
Proof.
  exact (proj1 (unreadable_plan_ends_the_run closing 5 orchestrator (VStr "AI news")
                  [inr (final_reply "Here is my plan: first search, then read.");
                   inr (final_reply "unused")])
               (final_reply "Here is my plan: first search, then read.")
               _ [] (Raised "JSONDecodeError" "Expecting value")
               [inr (final_reply "unused")] eq_refl eq_refl eq_refl).
Defined.
